(** * Quantmind, [Database/api.py]: the financial snapshot builder and its
      persistence sink

    A shallow embedding of [fetch_financials], its nested helper
    [extract_current_ratio], and [save_to_mongodb].

    - Python floats and numpy [float64] cells are IEEE-754 binary64 numbers:
      Rocq's primitive [float], with the same division, square root,
      comparison and NaN.
    - The record under construction ([data]) is a Python [dict] with string
      keys: a [gmap string pyval].  The function mutates it statement by
      statement, also inside [try] blocks, so the body is written in a monad
      that threads the dictionary and an exception status.
    - [yfinance], [pandas], [numpy] and [pymongo] are libraries outside the
      repository.  The provider is a record of call outcomes (each call
      returns or raises); the reductions the script calls ([pct_change],
      [std], [mean]) are written out as pandas computes them, with their
      default arguments, down to the order in which numpy adds the entries
      of an array; the collection is a list of documents with MongoDB's
      unique [_id]. *)

From Stdlib Require Import Floats ZArith NArith Ascii String List Bool Lia.
From stdpp Require Import gmap strings list fin_maps.

Set Warnings "-inexact-float".

Local Open Scope string_scope.

(** ** Python values, exceptions, and the statement monad *)

Module Py.

(** The scalar values that reach the record: [None], [str], [int],
    [float], and the [ObjectId] that the driver stamps on a document. *)
Inductive pyval : Type :=
| PNone
| PStr (s : string)
| PInt (z : Z)
| PFloat (f : float)
| PObjectId (n : N).

(** The exceptions of the run.  [ProviderError] stands for whatever the
    provider's network layer raises. *)
Inductive exn : Type :=
| KeyError (key : string)
| IndexError
| TypeError
| ValueError (msg : string)
| AttributeError (name : string)
| ProviderError (msg : string)
| DuplicateKeyError.

(** Outcome of a call: a value or a raised exception. *)
Inductive result (A : Type) : Type :=
| Ok (a : A)
| Raise (e : exn).
Arguments Ok {A} a.
Arguments Raise {A} e.

#[global] Instance result_ret : MRet result := @Ok.
#[global] Instance result_bind : MBind result := λ A B f r,
  match r with Ok a => f a | Raise e => Raise e end.

(** A Python [dict] with [str] keys. *)
Abbreviation dict := (gmap string pyval).

(** [d.get(k)]: the value, or [None] when the key is absent. *)
Definition dict_get (d : dict) (k : string) : pyval := default PNone (d !! k).

(** Statements over the dictionary [data]: the dictionary is threaded
    through, and survives a raised exception as it was at the raise. *)
Definition stmt (A : Type) : Type := dict → result A * dict.

#[global] Instance stmt_ret : MRet stmt := λ A a d, (Ok a, d).
#[global] Instance stmt_bind : MBind stmt := λ A B f m d,
  match m d with
  | (Ok a, d') => f a d'
  | (Raise e, d') => (Raise e, d')
  end.

(** [data[k] = v] *)
Definition setitem (k : string) (v : pyval) : stmt unit :=
  λ d, (Ok tt, <[k := v]> d).

(** [data[k]] *)
Definition getitem (k : string) : stmt pyval :=
  λ d, match d !! k with
       | Some v => (Ok v, d)
       | None => (Raise (KeyError k), d)
       end.

(** A call that does not touch [data]. *)
Definition call {A} (r : result A) : stmt A := λ d, (r, d).

(** [try: body / except: handler] with a bare [except], which catches
    every exception; the handler runs on the dictionary as the body left
    it. *)
Definition try_except (body handler : stmt unit) : stmt unit :=
  λ d, match body d with
       | (Ok u, d') => (Ok u, d')
       | (Raise _, d') => handler d'
       end.

(** [x if c else y] on an optional float and Python truthiness: [None] is
    falsy, a float is falsy exactly when it compares equal to zero (so
    [0.0] and [-0.0] are falsy, NaN is truthy). *)
Definition truthy (o : option float) : bool :=
  match o with
  | None => false
  | Some v => negb (v =? 0)%float
  end.

(** [x != 0]: [None != 0] holds, a float differs from zero unless it
    compares equal to it (NaN differs from everything). *)
Definition ne_zero (o : option float) : bool :=
  match o with
  | None => true
  | Some v => negb (v =? 0)%float
  end.

(** [x / y] on floats; [None] is not a number. *)
Definition truediv (x y : option float) : result (option float) :=
  match x, y with
  | Some a, Some b => Ok (Some (a / b)%float)
  | _, _ => Raise TypeError
  end.

(** [v is None] *)
Definition is_None (v : pyval) : bool :=
  match v with
  | PNone => true
  | _ => false
  end.

(** An optional float stored in the record. *)
Definition of_option (o : option float) : pyval :=
  match o with
  | None => PNone
  | Some v => PFloat v
  end.


(** [str.upper()] on a string of ASCII characters, which ticker symbols
    are: the letters a to z become A to Z, every other character is kept.
    Outside ASCII [str.upper()] follows the Unicode case mapping (the
    German sharp s becomes SS), which is not written out here: what is
    stated below about the value of an uppercased string is stated for
    [isascii] strings. *)
Definition upper_ascii (c : ascii) : ascii :=
  let n := N_of_ascii c in
  if (97 <=? n)%N && (n <=? 122)%N then ascii_of_N (n - 32) else c.

Fixpoint upper (s : string) : string :=
  match s with
  | EmptyString => EmptyString
  | String c s' => String (upper_ascii c) (upper s')
  end.

End Py.
Import Py.

(** ** numpy: the sum of a [float64] array *)

Module Np.

(** The loop [for (i = 0; i < n; i++) res += a[i]]. *)
Definition add_each (res : float) (a : list float) : float :=
  fold_left PrimFloat.add a res.

(** [r[j] += a[i + j]] for the eight accumulators [r[0]] to [r[7]]. *)
Definition add_lanes (r block : list float) : list float :=
  zip_with PrimFloat.add r block.

(** The unrolled loop [for (i = 8; i < n - n % 8; i += 8)] over [blocks]
    blocks of eight entries; fewer than eight entries are left. *)
Fixpoint unrolled (blocks : nat) (r a : list float) : list float * list float :=
  match blocks with
  | O => (r, a)
  | S blocks => unrolled blocks (add_lanes r (take 8 a)) (drop 8 a)
  end.

(** [r[j]] *)
Definition lane (r : list float) (j : nat) : float := nth j r 0%float.

(** The branch [8 <= n <= 128] of [pairwise_sum]: eight accumulators over
    the full blocks, added up as a tree, then the rest one by one. *)
Definition block_sum (a : list float) : float :=
  let '(r, rest) := unrolled (length a / 8 - 1) (take 8 a) (drop 8 a) in
  add_each (((lane r 0 + lane r 1) + (lane r 2 + lane r 3))
            + ((lane r 4 + lane r 5) + (lane r 6 + lane r 7)))%float rest.

(** [DOUBLE_pairwise_sum(a, n, stride)] of numpy's [loops_utils.h.src]:
    fewer than eight entries are added one by one; up to 128 entries go
    through [block_sum]; a longer array is cut at [n2 = n/2 - (n/2) % 8]
    and the sums of the two parts are added.  [depth] bounds the nesting
    of the cuts; with the length of the array for [depth], as in [sum],
    the last branch is never reached ([pairwise_sum_unfold]). *)
Fixpoint pairwise_sum (depth : nat) (a : list float) : float :=
  let n := length a in
  if (n <? 8)%nat then add_each 0 a
  else if (n <=? 128)%nat then block_sum a
  else
    match depth with
    | S depth =>
        let n2 := (n / 2 - (n / 2) mod 8)%nat in
        (pairwise_sum depth (take n2 a) + pairwise_sum depth (drop n2 a))%float
    | O => block_sum a
    end.

(** [a.sum()], that is [np.add.reduce(a)], on a contiguous [float64]
    array: the result starts as the identity 0.0, and the inner loop adds
    the pairwise sum of the whole array to it. *)
Definition sum (a : list float) : float :=
  (0 + pairwise_sum (length a) a)%float.

End Np.

(** ** pandas: labelled tables and the reductions of a float column

    The reductions are those of [pandas.core.nanops], which pandas runs
    when the optional accelerator [bottleneck] is not installed; the
    script neither imports nor requires it. *)

Module Pd.

(** A financial-statement table: row label to the row's period values,
    most recent period first.  Labels are unique, as the provider's
    tables have them. *)
Abbreviation DataFrame := (gmap string (list float)).

(** [name in df.index] *)
Definition in_index (name : string) (df : DataFrame) : bool :=
  bool_decide (is_Some (df !! name)).

(** [df.loc[name]] *)
Definition loc (df : DataFrame) (name : string) : result (list float) :=
  match df !! name with
  | Some row => Ok row
  | None => Raise (KeyError name)
  end.

(** [row.iloc[0]]: raises on a table without period columns. *)
Definition iloc0 (row : list float) : result float :=
  match row with
  | v :: _ => Ok v
  | [] => Raise IndexError
  end.

(** The number of entries of a column as a float. *)
Definition of_nat (n : nat) : float :=
  PrimFloat.of_uint63 (Uint63.of_Z (Z.of_nat n)).

Definition notna (x : float) : bool := negb (PrimFloat.is_nan x).

(** [skipna=True]: the entries that are not NaN. *)
Definition dropna (xs : list float) : list float := List.filter notna xs.

(** [s.count()] *)
Definition count (xs : list float) : nat := length (dropna xs).

(** [mask = isna(values)] *)
Definition isna (xs : list float) : list bool := map PrimFloat.is_nan xs.

(** [np.putmask(a, mask, v)]: [v] at the masked positions. *)
Definition putmask (a : list float) (mask : list bool) (v : float) : list float :=
  zip_with (λ x (m : bool), if m then v else x) a mask.

(** [s.shift(1)] *)
Definition shift1 (xs : list float) : list float :=
  match xs with
  | [] => []
  | _ :: _ => PrimFloat.nan :: removelast xs
  end.

(** [s.pct_change()]: [s / s.shift(1) - 1], so the first entry is NaN.
    (pandas before 3.0 forward-fills the NaN entries of [s] first; on a
    series without NaN the two agree, and what is stated below about the
    changes of a series of any length is stated for closes without NaN.) *)
Definition pct_change (xs : list float) : list float :=
  zip_with (λ x p, x / p - 1)%float xs (shift1 xs).

(** [s.mean()], that is [nanops.nanmean] with [skipna=True]: the NaN
    entries are replaced by 0 and left out of the count; the array is
    summed by numpy and divided by the count. *)
Definition mean (xs : list float) : float :=
  let mask := isna xs in
  let values := putmask xs mask 0 in
  let count := count xs in
  let the_sum := Np.sum values in
  if (0 <? count)%nat then (the_sum / of_nat count)%float else PrimFloat.nan.

(** [s.var()], that is [nanops.nanvar] with [ddof=1] and [skipna=True], in
    two passes: the mean of the entries that are not NaN, then their
    squared deviations from it, summed, over [d = count - ddof].  With
    [count <= ddof] pandas sets [count] and [d] to NaN, and so is the
    quotient. *)
Definition var (xs : list float) : float :=
  let mask := isna xs in
  let count := count xs in
  if (count <=? 1)%nat then PrimFloat.nan
  else
    let values := putmask xs mask 0 in
    let avg := (Np.sum values / of_nat count)%float in
    let sqr := putmask (map (λ v, (avg - v) * (avg - v))%float values) mask 0 in
    (Np.sum sqr / of_nat (count - 1))%float.

(** [s.std()]: the square root of [var]. *)
Definition std (xs : list float) : float := PrimFloat.sqrt (var xs).

(** One daily bar of [Ticker.history]: the [Close] and [Volume] cells (the
    volume as the float it becomes in the product). *)
Record Bar : Type := { Close : float; Volume : float }.

(** [hist["Close"]] *)
Definition closes (hist : list Bar) : list float := map Close hist.

(** [hist["Close"] * hist["Volume"]] *)
Definition turnover (hist : list Bar) : list float :=
  zip_with PrimFloat.mul (map Close hist) (map Volume hist).

End Pd.
Import Pd.

(** ** yfinance: what a [Ticker] object answers *)

Module Yf.

(** [Ticker.fast_info]: a lazily loaded quote object; every [get] may reach
    the network, so it returns a value ([None] for an absent field) or
    raises. *)
Record FastInfo : Type := { fast_get : string → result pyval }.

(** What [yf.Ticker(symbol)] answers to the builder: the outcome of the
    constructor call itself and of each expression the builder evaluates
    on the object.

    - [init] is [Ticker.__init__(symbol)], run by the call on line 22: it
      resolves an ISIN to a symbol over the network, and raises
      ([ValueError], or a network error) when it cannot.
    - [get_quarterly_balance_sheet] is the outcome of evaluating
      [t.get_quarterly_balance_sheet()], the attribute lookup included.
      The class [yfinance.Ticker] defines no attribute of that name (its
      quarterly sheet is the property [quarterly_balance_sheet], or
      [get_balance_sheet(freq="quarterly")]), so an object of that class
      answers [Raise (AttributeError _)]: see [no_quarterly_method].  The
      field is kept general, so that what is proved for every answer also
      holds for that one. *)
Record Ticker : Type := {
  init : result unit;
  fast_info : result FastInfo;
  get_info : result dict;
  get_financials : result DataFrame;
  get_balance_sheet : result DataFrame;
  get_quarterly_balance_sheet : result DataFrame;
  history : result (list Bar)
}.

(** The answer of an object of the class [yfinance.Ticker] on line 107. *)
Definition no_quarterly_method (t : Ticker) : Prop :=
  get_quarterly_balance_sheet t = Raise (AttributeError "get_quarterly_balance_sheet").

End Yf.
Import Yf.

(** ** [fetch_financials] *)

Definition possible_revenue_rows : list string :=
  ["Total Revenue"; "TotalRevenue"].

Definition asset_keys : list string :=
  ["Total Current Assets"; "Current Assets"; "CurrentAssets"].

Definition liability_keys : list string :=
  ["Total Current Liabilities"; "Current Liabilities"; "CurrentLiabilities"].

(** The loop
    [value = None; for name in names: if name in df.index: value = df.loc[name].iloc[0]; break]. *)
Fixpoint first_row_value (names : list string) (df : DataFrame) : result (option float) :=
  match names with
  | [] => Ok None
  | name :: rest =>
      if in_index name df
      then row ← loc df name; v ← iloc0 row; Ok (Some v)
      else first_row_value rest df
  end.

Definition extract_current_ratio (bs : DataFrame) : result (option float) :=
  curr_assets ← first_row_value asset_keys bs;
  curr_liabilities ← first_row_value liability_keys bs;
  if truthy curr_assets && truthy curr_liabilities && ne_zero curr_liabilities
  then truediv curr_assets curr_liabilities
  else Ok None.

Section Builder.

(** What [yf.Ticker] answers for each symbol, and the string
    [datetime.utcnow().isoformat()] gives at the call. *)
Variable yf_Ticker : string → Ticker.
Variable utcnow_isoformat : string.

(** BASIC PRICE DATA: not inside any [try]. *)
Definition basic_price_data (t : Ticker) : stmt unit :=
  fast ← call (fast_info t);
  v ← call (fast_get fast "lastPrice"); setitem "last_price" v;;
  v ← call (fast_get fast "marketCap"); setitem "market_cap" v;;
  v ← call (fast_get fast "yearHigh"); setitem "year_high" v;;
  v ← call (fast_get fast "yearLow"); setitem "year_low" v;;
  v ← call (fast_get fast "lastVolume"); setitem "volume" v.

(** SECTOR, INDUSTRY, EPS, PE, ROE, DEBT/EQUITY, PROFIT MARGIN *)
Definition company_info (t : Ticker) : stmt unit :=
  try_except
    (info ← call (get_info t);
     setitem "sector" (dict_get info "sector");;
     setitem "industry" (dict_get info "industry");;
     setitem "eps" (dict_get info "trailingEps");;
     setitem "pe_ratio" (dict_get info "trailingPE");;
     setitem "roe" (dict_get info "returnOnEquity");;
     setitem "debt_to_equity" (dict_get info "debtToEquity");;
     setitem "profit_margin" (dict_get info "profitMargins"))
    (setitem "sector" PNone;;
     setitem "industry" PNone;;
     setitem "eps" PNone;;
     setitem "pe_ratio" PNone;;
     setitem "roe" PNone;;
     setitem "debt_to_equity" PNone;;
     setitem "profit_margin" PNone).

(** TOTAL REVENUE; [float(v)] of a float [v] is [v]. *)
Definition total_revenue (t : Ticker) : stmt unit :=
  try_except
    (fin ← call (get_financials t);
     revenue_value ← call (first_row_value possible_revenue_rows fin);
     setitem "total_revenue"
       (if truthy revenue_value then of_option revenue_value else PNone))
    (setitem "total_revenue" PNone).

(** CURRENT RATIO: the annual sheet, then the quarterly one when the field
    is still [None]. *)
Definition current_ratio (t : Ticker) : stmt unit :=
  try_except
    (bs_annual ← call (get_balance_sheet t);
     r ← call (extract_current_ratio bs_annual);
     setitem "current_ratio" (of_option r))
    (setitem "current_ratio" PNone);;
  cr ← getitem "current_ratio";
  if is_None cr
  then
    try_except
      (bs_quarter ← call (get_quarterly_balance_sheet t);
       r ← call (extract_current_ratio bs_quarter);
       setitem "current_ratio" (of_option r))
      (setitem "current_ratio" PNone)
  else mret tt.

(** The last block: volatility and liquidity from one year of daily bars. *)
Definition volatility_liquidity (t : Ticker) : stmt unit :=
  try_except
    (hist ← call (history t);
     let returns := pct_change (closes hist) in
     setitem "volatility" (PFloat (std returns * PrimFloat.sqrt 252)%float);;
     setitem "liquidity" (PFloat (mean (turnover hist))))
    (setitem "volatility" PNone;;
     setitem "liquidity" PNone).

Definition fetch_financials (ticker_symbol : string) : result dict :=
  let t := yf_Ticker ticker_symbol in
  _ ← init t;
  let data : dict :=
    <["timestamp" := PStr utcnow_isoformat]>
      (<["ticker" := PStr (upper ticker_symbol)]> ∅) in
  let body :=
    basic_price_data t;;
    company_info t;;
    total_revenue t;;
    current_ratio t;;
    volatility_liquidity t in
  match body data with
  | (Ok _, data') => Ok data'
  | (Raise e, _) => Raise e
  end.

End Builder.

(** ** pymongo: the collection and [save_to_mongodb] *)

Module Mongo.

#[global] Instance float_eq_dec : EqDecision float.
Proof.
  intros x y. destruct (PrimFloat.Leibniz.eqb x y) eqn:E; [left | right].
  - by apply FloatAxioms.Leibniz.eqb_spec.
  - intros H. apply FloatAxioms.Leibniz.eqb_spec in H. congruence.
Defined.

#[global] Instance pyval_eq_dec : EqDecision pyval.
Proof. solve_decision. Defined.

(** The collection the module-level handle points to: its documents in
    insertion order, and the state of the driver's [ObjectId] generator. *)
Record collection : Type := {
  documents : list dict;
  next_oid : N
}.

(** Whether a stored document already carries this [_id] (MongoDB keeps a
    unique index on [_id] in every collection). *)
Definition id_taken (oid : pyval) (c : collection) : bool :=
  existsb (λ doc, bool_decide (doc !! "_id" = Some oid)) (documents c).

(** [Collection.insert_one(document)] on a reachable server: a document
    without [_id] gets a new [ObjectId] written into the caller's
    dictionary; the insert is refused with [DuplicateKeyError] when the
    [_id] is already stored.  The result carries the caller's dictionary as
    the call leaves it.

    Not covered: a server that cannot be reached (the call then raises a
    connection error, after the [_id] was written and before anything is
    stored), and the comparison of [_id] values as BSON, under which 1 and
    1.0 are one key.  The records of the builder carry no [_id], and the
    driver's own are [ObjectId]s, on which BSON equality is equality. *)
Definition insert_one (document : dict) (c : collection)
  : dict * result unit * collection :=
  let '(document, c) :=
    match document !! "_id" with
    | Some _ => (document, c)
    | None =>
        (<["_id" := PObjectId (next_oid c)]> document,
         {| documents := documents c; next_oid := N.succ (next_oid c) |})
    end in
  if id_taken (dict_get document "_id") c
  then (document, Raise DuplicateKeyError, c)
  else (document, Ok tt,
        {| documents := documents c ++ [document]; next_oid := next_oid c |}).

(** The process state [save_to_mongodb] acts on: the collection and what
    has been printed. *)
Record world : Type := {
  coll : collection;
  stdout : list string
}.

(** The first component is [data] after the call: the caller's variable
    still names that dictionary. *)
Definition save_to_mongodb (data : dict) (w : world) : dict * result unit * world :=
  match insert_one data (coll w) with
  | (data, Ok _, c) =>
      (data, Ok tt,
       {| coll := c; stdout := stdout w ++ ["✔ Saved to MongoDB successfully!"] |})
  | (data, Raise e, c) => (data, Raise e, {| coll := c; stdout := stdout w |})
  end.

(** Every [ObjectId] stored so far was drawn before the generator's current
    state. *)
Definition oids_below (c : collection) : Prop :=
  ∀ doc n, doc ∈ documents c → doc !! "_id" = Some (PObjectId n) → (n < next_oid c)%N.

End Mongo.
Import Mongo.

(** ** What the record holds, facet by facet

    Closed forms of the value each block leaves in [data]; the lemmas below
    prove that [fetch_financials] stores exactly these. *)

Definition quote_keys : list string :=
  ["lastPrice"; "marketCap"; "yearHigh"; "yearLow"; "lastVolume"].

Definition is_Ok {A} (r : result A) : bool :=
  match r with
  | Ok _ => true
  | Raise _ => false
  end.

(** The quick-quote facet answered: the object loaded and each of the five
    lookups returned. *)
Definition quote_ok (t : Ticker) : bool :=
  match fast_info t with
  | Ok fast => forallb (λ k, is_Ok (fast_get fast k)) quote_keys
  | Raise _ => false
  end.

Definition quote_field (t : Ticker) (k : string) : pyval :=
  match fast_info t with
  | Ok fast => match fast_get fast k with Ok v => v | Raise _ => PNone end
  | Raise _ => PNone
  end.

Definition info_field (t : Ticker) (k : string) : pyval :=
  match get_info t with
  | Ok info => dict_get info k
  | Raise _ => PNone
  end.

Definition revenue_field (t : Ticker) : pyval :=
  match get_financials t with
  | Ok fin =>
      match first_row_value possible_revenue_rows fin with
      | Ok revenue_value =>
          if truthy revenue_value then of_option revenue_value else PNone
      | Raise _ => PNone
      end
  | Raise _ => PNone
  end.

(** One [try] of the current-ratio block on a fetched sheet. *)
Definition sheet_ratio (sheet : result DataFrame) : pyval :=
  match sheet with
  | Ok bs =>
      match extract_current_ratio bs with
      | Ok r => of_option r
      | Raise _ => PNone
      end
  | Raise _ => PNone
  end.

Definition ratio_field (t : Ticker) : pyval :=
  if is_None (sheet_ratio (get_balance_sheet t))
  then sheet_ratio (get_quarterly_balance_sheet t)
  else sheet_ratio (get_balance_sheet t).

Definition volatility_of (hist : list Bar) : float :=
  (std (pct_change (closes hist)) * PrimFloat.sqrt 252)%float.

Definition liquidity_of (hist : list Bar) : float := mean (turnover hist).

Definition volatility_field (t : Ticker) : pyval :=
  match history t with
  | Ok hist => PFloat (volatility_of hist)
  | Raise _ => PNone
  end.

Definition liquidity_field (t : Ticker) : pyval :=
  match history t with
  | Ok hist => PFloat (liquidity_of hist)
  | Raise _ => PNone
  end.

(** The record of a run whose quick quote answered. *)
Definition snapshot (t : Ticker) (timestamp ticker_symbol : string) : dict :=
  <["liquidity" := liquidity_field t]> (
  <["volatility" := volatility_field t]> (
  <["current_ratio" := ratio_field t]> (
  <["total_revenue" := revenue_field t]> (
  <["profit_margin" := info_field t "profitMargins"]> (
  <["debt_to_equity" := info_field t "debtToEquity"]> (
  <["roe" := info_field t "returnOnEquity"]> (
  <["pe_ratio" := info_field t "trailingPE"]> (
  <["eps" := info_field t "trailingEps"]> (
  <["industry" := info_field t "industry"]> (
  <["sector" := info_field t "sector"]> (
  <["volume" := quote_field t "lastVolume"]> (
  <["year_low" := quote_field t "yearLow"]> (
  <["year_high" := quote_field t "yearHigh"]> (
  <["market_cap" := quote_field t "marketCap"]> (
  <["last_price" := quote_field t "lastPrice"]> (
  <["timestamp" := PStr timestamp]> (
  <["ticker" := PStr (upper ticker_symbol)]> ∅))))))))))))))))).

(** ** The vocabulary of the specification *)

(** The documented field set of a snapshot. *)
Definition documented_keys : gset string :=
  list_to_set
    ["ticker"; "timestamp"; "last_price"; "market_cap"; "year_high";
     "year_low"; "volume"; "sector"; "industry"; "eps"; "pe_ratio"; "roe";
     "debt_to_equity"; "profit_margin"; "total_revenue"; "current_ratio";
     "volatility"; "liquidity"].

(** The seven fields of the descriptive/fundamental facet. *)
Definition company_fields : list string :=
  ["sector"; "industry"; "eps"; "pe_ratio"; "roe"; "debt_to_equity";
   "profit_margin"].

(** A field of the record is null. *)
Definition null (data : dict) (k : string) : Prop := data !! k = Some PNone.

(** Ordered alias matching, first match wins: [name] is the first label of
    [names] present in the table. *)
Inductive first_match (df : DataFrame) : list string → string → Prop :=
| first_match_here name rest :
    is_Some (df !! name) → first_match df (name :: rest) name
| first_match_later name rest m :
    df !! name = None → first_match df rest m → first_match df (name :: rest) m.

(** The row matched by the alias list has [v] as its most recent period
    value. *)
Definition matched_value (df : DataFrame) (names : list string) (v : float) : Prop :=
  ∃ name older, first_match df names name ∧ df !! name = Some (v :: older).

(** None of the aliases labels a row. *)
Definition no_match (df : DataFrame) (names : list string) : Prop :=
  Forall (λ name, df !! name = None) names.

(** The extraction on a fetched sheet yields null: the fetch raised, the
    extraction raised, or it returned [None]. *)
Definition yields_null (sheet : result DataFrame) : Prop :=
  match sheet with
  | Ok bs => ∀ v, extract_current_ratio bs ≠ Ok (Some v)
  | Raise _ => True
  end.

(** [s] is a floating-point sum of the entries of [xs]: every entry is
    added exactly once, in some order and with some bracketing; an empty
    sum is 0.0 (so zeros may be added along the way). *)
Inductive float_sum : list float → float → Prop :=
| float_sum_nil : float_sum [] 0
| float_sum_one x : float_sum [x] x
| float_sum_app xs ys a b :
    float_sum xs a → float_sum ys b → float_sum (xs ++ ys) (a + b)
| float_sum_perm xs ys a :
    xs ≡ₚ ys → float_sum xs a → float_sum ys a.

(** [m] is an arithmetic mean of [xs] in floating point: a sum of all the
    entries over their number. *)
Definition arithmetic_mean (xs : list float) (m : float) : Prop :=
  ∃ s, float_sum xs s ∧ m = (s / of_nat (length xs))%float.

(** [sd] is a sample standard deviation of [xs] in floating point, with
    Bessel's correction ([ddof = 1]): the square root of the sum of the
    squared deviations from an arithmetic mean, over the number of
    entries less one. *)
Definition sample_std (xs : list float) (sd : float) : Prop :=
  ∃ avg q,
    arithmetic_mean xs avg
    ∧ float_sum (map (λ x, (avg - x) * (avg - x))%float xs) q
    ∧ sd = PrimFloat.sqrt (q / of_nat (length xs - 1)).

(** The day-over-day percentage changes of a series: [c / p - 1] for each
    entry [c] and its predecessor [p]; one entry fewer than the series. *)
Definition day_over_day (cs : list float) : list float :=
  zip_with (λ p c, c / p - 1)%float cs (tail cs).

(** Not negative: NaN, or at least zero ([+inf] included). *)
Definition not_negative (v : float) : Prop :=
  PrimFloat.is_nan v = true ∨ (0 <=? v)%float = true.

(** The same on the IEEE-754 datum of a float: the sign bit is clear, or
    the datum is a zero or NaN. *)
Inductive sf_not_negative : spec_float → Prop :=
| sfnn_nan : sf_not_negative S754_nan
| sfnn_zero s : sf_not_negative (S754_zero s)
| sfnn_inf : sf_not_negative (S754_infinity false)
| sfnn_fin m e : sf_not_negative (S754_finite false m e).

(** The IEEE-754 datum of [np.sqrt(252)]. *)
Definition sqrt_252 : spec_float := S754_finite false 8936553463969119 (-49).

(** ** Sample providers

    Concrete answers of the provider, used to run the builder. *)

Module Examples.

Definition now : string := "2024-03-01T09:30:00".

Definition acme_quote : dict :=
  <["lastPrice" := PFloat 150]> (
  <["marketCap" := PInt 2500000]> (
  <["yearHigh" := PFloat 180]> (
  <["yearLow" := PFloat 120]> (
  <["lastVolume" := PInt 90000]> ∅)))).

Definition acme_fast_info : FastInfo :=
  {| fast_get := λ k, Ok (dict_get acme_quote k) |}.

Definition acme_info : dict :=
  <["sector" := PStr "Technology"]> (
  <["industry" := PStr "Software"]> (
  <["trailingEps" := PFloat 6]> (
  <["trailingPE" := PFloat 25]> (
  <["returnOnEquity" := PFloat 0.5]> (
  <["debtToEquity" := PFloat 80]> (
  <["profitMargins" := PFloat 0.25]> ∅)))))).

Definition income_statement : DataFrame :=
  <["Total Revenue" := [1000; 900]%float]> (
  <["TotalRevenue" := [7; 7]%float]> (
  <["Net Income" := [250; 200]%float]> ∅)).

Definition annual_sheet : DataFrame :=
  <["Current Assets" := [200; 180]%float]> (
  <["Current Liabilities" := [100; 90]%float]> (
  <["Cash" := [40; 30]%float]> ∅)).

Definition quarterly_sheet : DataFrame :=
  <["Current Assets" := [50; 48]%float]> (
  <["Current Liabilities" := [25; 24]%float]> ∅).

(** A sheet with neither a current-assets nor a current-liabilities row. *)
Definition bare_sheet : DataFrame :=
  <["Cash" := [40; 30]%float]> ∅.

Definition zero_liabilities_sheet : DataFrame :=
  <["Current Assets" := [200]%float]> (
  <["Current Liabilities" := [0]%float]> ∅).

(** Both operands non-zero, the quotient below the smallest positive
    double. *)
Definition tiny_sheet : DataFrame :=
  <["Current Assets" := [1e-200]%float]> (
  <["Current Liabilities" := [1e200]%float]> ∅).

Definition three_bars : list Bar :=
  [ {| Close := 100; Volume := 10 |};
    {| Close := 110; Volume := 10 |};
    {| Close := 99; Volume := 20 |} ].

Definition two_bars : list Bar :=
  [ {| Close := 100; Volume := 10 |};
    {| Close := 110; Volume := 10 |} ].

Definition one_bar : list Bar :=
  [ {| Close := 100; Volume := 10 |} ].

(** A bar with a zero close between two ordinary ones. *)
Definition zero_close_bars : list Bar :=
  [ {| Close := 100; Volume := 10 |};
    {| Close := 0; Volume := 10 |};
    {| Close := 110; Volume := 10 |} ].

(** A day without a close (NaN) between two ordinary ones. *)
Definition gap_bars : list Bar :=
  [ {| Close := 100; Volume := 10 |};
    {| Close := PrimFloat.nan; Volume := 10 |};
    {| Close := 110; Volume := 10 |} ].

(** Eight equal bars. *)
Definition eight_bars : list Bar := repeat {| Close := 0.1; Volume := 1 |} 8.

Definition down {A} : result A := Raise (ProviderError "connection reset").

(** What line 107 gets from an object of the class [yfinance.Ticker]. *)
Definition no_such_method {A} : result A :=
  Raise (AttributeError "get_quarterly_balance_sheet").

(** Every facet answers. *)
Definition acme : Ticker :=
  {| init := Ok tt;
     fast_info := Ok acme_fast_info;
     get_info := Ok acme_info;
     get_financials := Ok income_statement;
     get_balance_sheet := Ok annual_sheet;
     get_quarterly_balance_sheet := Ok quarterly_sheet;
     history := Ok three_bars |}.

(** Only the quick quote answers. *)
Definition degraded : Ticker :=
  {| init := Ok tt;
     fast_info := Ok acme_fast_info;
     get_info := down;
     get_financials := down;
     get_balance_sheet := down;
     get_quarterly_balance_sheet := down;
     history := down |}.

Definition with_info (info : result dict) (t : Ticker) : Ticker :=
  {| init := init t;
     fast_info := fast_info t;
     get_info := info;
     get_financials := get_financials t;
     get_balance_sheet := get_balance_sheet t;
     get_quarterly_balance_sheet := get_quarterly_balance_sheet t;
     history := history t |}.

Definition with_sheets (annual quarterly : result DataFrame) (t : Ticker) : Ticker :=
  {| init := init t;
     fast_info := fast_info t;
     get_info := get_info t;
     get_financials := get_financials t;
     get_balance_sheet := annual;
     get_quarterly_balance_sheet := quarterly;
     history := history t |}.

Definition with_history (hist : result (list Bar)) (t : Ticker) : Ticker :=
  {| init := init t;
     fast_info := fast_info t;
     get_info := get_info t;
     get_financials := get_financials t;
     get_balance_sheet := get_balance_sheet t;
     get_quarterly_balance_sheet := get_quarterly_balance_sheet t;
     history := hist |}.

(** An empty collection and nothing printed yet. *)
Definition fresh_world : world :=
  {| coll := {| documents := []; next_oid := 0 |}; stdout := [] |}.

End Examples.

(** Unfolds the statement monad. *)
Ltac run_stmt :=
  cbv [mbind mret stmt_bind stmt_ret result_bind result_ret call setitem getitem try_except].

(** Looks a field up in [snapshot]. *)
Ltac snapshot_lookup := unfold null, snapshot; by simplify_map_eq.

(** ** The entry point *)

(** The quick-quote fields with the provider key each is read from, in the
    order of the source. *)
Definition quote_fields : list (string * string) :=
  [("last_price", "lastPrice"); ("market_cap", "marketCap");
   ("year_high", "yearHigh"); ("year_low", "yearLow");
   ("volume", "lastVolume")].

(** The company-info fields with the key of [info] each is read from. *)
Definition company_keys : list (string * string) :=
  [("sector", "sector"); ("industry", "industry"); ("eps", "trailingEps");
   ("pe_ratio", "trailingPE"); ("roe", "returnOnEquity");
   ("debt_to_equity", "debtToEquity"); ("profit_margin", "profitMargins")].

(** Every stored document carries an [_id], and no two carry the same. *)
Definition unique_ids (c : collection) : Prop :=
  NoDup (map (λ doc : dict, doc !! "_id") (documents c))
  ∧ Forall (λ doc : dict, is_Some (doc !! "_id")) (documents c).

(** One write to standard output: a [print] call, or the prompt of
    [input]. *)
Definition print (text : string) (w : world) : world :=
  {| coll := coll w; stdout := (stdout w ++ [text])%list |}.

(** The character "\n". *)
Definition newline : string := String (ascii_of_nat 10) EmptyString.

Section Main.

Variable yf_Ticker : string → Ticker.
Variable utcnow_isoformat : string.

(** [str] of a record and of an exception, as [print] writes them. *)
Variable str_dict : dict → string.
Variable str_exn : exn → string.

(** The block under [if __name__ == "__main__"], run on the line the user
    typed. *)
Definition main (typed : string) (w : world) : world :=
  let w := print "Enter stock ticker (e.g., AAPL): " w in
  let ticker := upper typed in
  let w := print (newline ++ "Fetching financial data...") w in
  match fetch_financials yf_Ticker utcnow_isoformat ticker with
  | Ok result =>
      let w := print (newline ++ "Saving to MongoDB...") w in
      match save_to_mongodb result w with
      | (result, Ok _, w) =>
          let w := print (newline ++ "✔ Completed!") w in
          print (str_dict result) w
      | (_, Raise e, w) => print (newline ++ "❌ Error: " ++ str_exn e) w
      end
  | Raise e => print (newline ++ "❌ Error: " ++ str_exn e) w
  end.

End Main.

(** ** More sample answers *)

Module Cases.

(** The quick quote cannot be loaded. *)
Definition no_quote : Ticker :=
  {| init := Ok tt;
     fast_info := Examples.down;
     get_info := Ok Examples.acme_info;
     get_financials := Ok Examples.income_statement;
     get_balance_sheet := Ok Examples.annual_sheet;
     get_quarterly_balance_sheet := Ok Examples.quarterly_sheet;
     history := Ok Examples.three_bars |}.

(** The constructor rejects the symbol: an ISIN that resolves to no
    ticker. *)
Definition bad_isin : Ticker :=
  {| init := Raise (ValueError "Invalid ISIN number: US0000000000");
     fast_info := Ok Examples.acme_fast_info;
     get_info := Ok Examples.acme_info;
     get_financials := Ok Examples.income_statement;
     get_balance_sheet := Ok Examples.annual_sheet;
     get_quarterly_balance_sheet := Ok Examples.quarterly_sheet;
     history := Ok Examples.three_bars |}.

(** A company-info answer without [industry] and [trailingPE]. *)
Definition sparse_info : dict :=
  <["sector" := PStr "Technology"]> (
  <["trailingEps" := PFloat 6]> ∅).

(** The most recent current-assets cell is missing (NaN). *)
Definition nan_assets_sheet : DataFrame :=
  <["Current Assets" := [PrimFloat.nan; 180]%float]> (
  <["Current Liabilities" := [100; 90]%float]> ∅).

Definition nan_revenue_statement : DataFrame :=
  <["Total Revenue" := [PrimFloat.nan; 900]%float]> ∅.

(** Row labels without any period column. *)
Definition no_period_sheet : DataFrame :=
  <["Current Assets" := []]> (<["Current Liabilities" := []]> ∅).

Definition no_period_statement : DataFrame :=
  <["Total Revenue" := []]> ∅.

(** The annual sheet of the sample provider with older periods changed. *)
Definition restated_sheet : DataFrame :=
  <["Current Assets" := [200; 1; 2]%float]> (
  <["Current Liabilities" := [100]%float]> (
  <["Cash" := [40; 7]%float]> ∅)).

Definition with_financials (fin : result DataFrame) (t : Ticker) : Ticker :=
  {| init := init t;
     fast_info := fast_info t;
     get_info := get_info t;
     get_financials := fin;
     get_balance_sheet := get_balance_sheet t;
     get_quarterly_balance_sheet := get_quarterly_balance_sheet t;
     history := history t |}.

Definition show_dict (d : dict) : string := "<record>".

Definition show_exn (e : exn) : string :=
  match e with
  | KeyError key => key
  | IndexError => "single positional indexer is out-of-bounds"
  | TypeError => "unsupported operand type(s)"
  | ValueError msg => msg
  | AttributeError name => "'Ticker' object has no attribute '" ++ name ++ "'"
  | ProviderError msg => msg
  | DuplicateKeyError => "E11000 duplicate key error"
  end.

(** A collection that already holds one saved record. *)
Definition stocked_world : world :=
  {| coll := {| documents :=
                  [<["_id" := PObjectId 0]>
                     (snapshot Examples.acme Examples.now "ACME")];
                next_oid := 1 |};
     stdout := [] |}.

End Cases.

(** * Properties *)

(** ** Running the blocks of [fetch_financials] *)

Lemma basic_price_data_run t d :
  basic_price_data t d =
    if quote_ok t
    then (Ok tt,
          <["volume" := quote_field t "lastVolume"]> (
          <["year_low" := quote_field t "yearLow"]> (
          <["year_high" := quote_field t "yearHigh"]> (
          <["market_cap" := quote_field t "marketCap"]> (
          <["last_price" := quote_field t "lastPrice"]> d)))))
    else basic_price_data t d.
Proof.
  unfold quote_ok, quote_field, basic_price_data. run_stmt.
  destruct (fast_info t) as [fast|e]; [|reflexivity]. simpl.
  destruct (fast_get fast "lastPrice"); simpl; [|reflexivity].
  destruct (fast_get fast "marketCap"); simpl; [|reflexivity].
  destruct (fast_get fast "yearHigh"); simpl; [|reflexivity].
  destruct (fast_get fast "yearLow"); simpl; [|reflexivity].
  destruct (fast_get fast "lastVolume"); simpl; reflexivity.
Qed.

Lemma company_info_run t d :
  company_info t d =
    (Ok tt,
     <["profit_margin" := info_field t "profitMargins"]> (
     <["debt_to_equity" := info_field t "debtToEquity"]> (
     <["roe" := info_field t "returnOnEquity"]> (
     <["pe_ratio" := info_field t "trailingPE"]> (
     <["eps" := info_field t "trailingEps"]> (
     <["industry" := info_field t "industry"]> (
     <["sector" := info_field t "sector"]> d))))))).
Proof.
  unfold company_info, info_field. run_stmt. destruct (get_info t); reflexivity.
Qed.

Lemma total_revenue_run t d :
  total_revenue t d = (Ok tt, <["total_revenue" := revenue_field t]> d).
Proof.
  unfold total_revenue, revenue_field. run_stmt.
  destruct (get_financials t) as [fin|]; [|reflexivity].
  destruct (first_row_value possible_revenue_rows fin); reflexivity.
Qed.

Lemma current_ratio_run t d :
  current_ratio t d = (Ok tt, <["current_ratio" := ratio_field t]> d).
Proof.
  assert (Hannual :
    try_except
      (bs_annual ← call (get_balance_sheet t);
       r ← call (extract_current_ratio bs_annual);
       setitem "current_ratio" (of_option r))
      (setitem "current_ratio" PNone) d
    = (Ok tt, <["current_ratio" := sheet_ratio (get_balance_sheet t)]> d)).
  { unfold sheet_ratio. run_stmt.
    destruct (get_balance_sheet t) as [bs|]; [|reflexivity].
    destruct (extract_current_ratio bs); reflexivity. }
  unfold current_ratio, ratio_field.
  unfold mbind at 1. unfold stmt_bind at 1. rewrite Hannual.
  unfold mbind at 1. unfold stmt_bind at 1. unfold getitem at 1.
  rewrite lookup_insert_eq.
  destruct (is_None (sheet_ratio (get_balance_sheet t))); [|reflexivity].
  unfold sheet_ratio. run_stmt.
  destruct (get_quarterly_balance_sheet t) as [bs|];
    [destruct (extract_current_ratio bs)|]; by rewrite insert_insert_eq.
Qed.

Lemma volatility_liquidity_run t d :
  volatility_liquidity t d =
    (Ok tt, <["liquidity" := liquidity_field t]> (<["volatility" := volatility_field t]> d)).
Proof.
  unfold volatility_liquidity, liquidity_field, volatility_field. run_stmt.
  destruct (history t); reflexivity.
Qed.

Lemma basic_price_data_raise t d :
  quote_ok t = false → ∃ e d', basic_price_data t d = (Raise e, d').
Proof.
  unfold quote_ok, basic_price_data. run_stmt.
  destruct (fast_info t) as [fast|e]; [|by eauto]. simpl.
  destruct (fast_get fast "lastPrice"); simpl; [|by eauto].
  destruct (fast_get fast "marketCap"); simpl; [|by eauto].
  destruct (fast_get fast "yearHigh"); simpl; [|by eauto].
  destruct (fast_get fast "yearLow"); simpl; [|by eauto].
  destruct (fast_get fast "lastVolume"); simpl; [done|by eauto].
Qed.

(** The four blocks inside a [try] never abort the run: when the
    constructor returns and the quick quote answers, [fetch_financials]
    returns the snapshot, whatever the other facets do. *)
Lemma fetch_financials_ok yf now s :
  init (yf s) = Ok tt → quote_ok (yf s) = true →
  fetch_financials yf now s = Ok (snapshot (yf s) now s).
Proof.
  intros Hi Hq. unfold fetch_financials. rewrite Hi.
  cbv [mbind result_bind stmt_bind].
  rewrite basic_price_data_run, Hq, company_info_run, total_revenue_run,
    current_ratio_run, volatility_liquidity_run.
  reflexivity.
Qed.

(** A quick quote that does not answer leaves no record. *)
Lemma fetch_financials_raise yf now s :
  quote_ok (yf s) = false → ∃ e, fetch_financials yf now s = Raise e.
Proof.
  intros Hq. unfold fetch_financials.
  destruct (init (yf s)) as [[]|e]; [|by exists e].
  cbv [mbind result_bind stmt_bind].
  destruct (basic_price_data_raise (yf s)
    (<["timestamp" := PStr now]> (<["ticker" := PStr (upper s)]> ∅)) Hq) as (e & d' & ->).
  by exists e.
Qed.

Lemma fetch_financials_init_raise yf now s e :
  init (yf s) = Raise e → fetch_financials yf now s = Raise e.
Proof. intros Hi. unfold fetch_financials. by rewrite Hi. Qed.

Lemma fetch_financials_inv yf now s data :
  fetch_financials yf now s = Ok data →
  quote_ok (yf s) = true ∧ data = snapshot (yf s) now s.
Proof.
  intros H. destruct (init (yf s)) as [[]|e] eqn:Hi.
  - destruct (quote_ok (yf s)) eqn:Hq.
    + rewrite fetch_financials_ok in H by done. by inversion H.
    + destruct (fetch_financials_raise yf now s Hq) as [e He]. congruence.
  - rewrite (fetch_financials_init_raise _ _ _ _ Hi) in H. congruence.
Qed.

Lemma fetch_financials_returns_iff yf now s :
  is_Ok (fetch_financials yf now s) = is_Ok (init (yf s)) && quote_ok (yf s).
Proof.
  destruct (init (yf s)) as [[]|e] eqn:Hi.
  - destruct (quote_ok (yf s)) eqn:Hq.
    + by rewrite fetch_financials_ok.
    + by destruct (fetch_financials_raise yf now s Hq) as [e ->].
  - by rewrite (fetch_financials_init_raise _ _ _ _ Hi).
Qed.

Lemma snapshot_dom t now s : dom (snapshot t now s) = documented_keys.
Proof.
  unfold snapshot. rewrite !dom_insert_L, dom_empty_L.
  unfold documented_keys. simpl. set_solver.
Qed.

(** ** IEEE-754 facts used below *)

Lemma is_nan_SF x : Prim2SF x = S754_nan → PrimFloat.is_nan x = true.
Proof.
  intros H. unfold PrimFloat.is_nan. rewrite FloatAxioms.eqb_spec, H. reflexivity.
Qed.

Lemma div_nan_sub_one x : PrimFloat.is_nan (x / PrimFloat.nan - 1)%float = true.
Proof.
  apply is_nan_SF. rewrite sub_spec, div_spec.
  change (Prim2SF PrimFloat.nan) with S754_nan.
  unfold SF64sub, SF64div. by destruct (Prim2SF x).
Qed.

Lemma binary_round_aux_not_negative prec emax m e l :
  sf_not_negative (binary_round_aux prec emax false m e l).
Proof.
  unfold binary_round_aux.
  destruct (shr_fexp prec emax m e l) as [mrs' e'].
  destruct (shr_fexp prec emax _ e' loc_Exact) as [mrs'' e''].
  destruct (shr_m mrs''); [constructor| |constructor].
  destruct (_ <=? _)%Z; constructor.
Qed.

Lemma SFsqrt_not_negative prec emax x : sf_not_negative (SFsqrt prec emax x).
Proof.
  destruct x as [s|s| |s m e]; simpl; try destruct s; try constructor.
  destruct (SFsqrt_core_binary prec emax (Z.pos m) e) as [[mz ez] lz].
  apply binary_round_aux_not_negative.
Qed.

Lemma SFmul_not_negative prec emax x m e :
  sf_not_negative x → sf_not_negative (SFmul prec emax x (S754_finite false m e)).
Proof.
  destruct 1; simpl; try constructor.
  apply binary_round_aux_not_negative.
Qed.

Lemma not_negative_SF v : sf_not_negative (Prim2SF v) → not_negative v.
Proof.
  intros H. unfold not_negative.
  inversion H as [Hv|s Hv|Hv|m e Hv].
  - left. by apply is_nan_SF.
  - right. rewrite leb_spec, <-Hv. reflexivity.
  - right. rewrite leb_spec, <-Hv. reflexivity.
  - right. rewrite leb_spec, <-Hv. reflexivity.
Qed.

Lemma sqrt_scaled_not_negative x : not_negative (PrimFloat.sqrt x * PrimFloat.sqrt 252)%float.
Proof.
  apply not_negative_SF. rewrite mul_spec, sqrt_spec.
  assert (∃ m e, Prim2SF (PrimFloat.sqrt 252) = S754_finite false m e) as (m & e & ->).
  { eexists _, _. vm_compute. reflexivity. }
  apply SFmul_not_negative, SFsqrt_not_negative.
Qed.

Lemma volatility_not_negative hist : not_negative (volatility_of hist).
Proof. apply sqrt_scaled_not_negative. Qed.

Lemma div_nan_l x : (PrimFloat.nan / x)%float = PrimFloat.nan.
Proof.
  apply Prim2SF_inj. rewrite div_spec.
  change (Prim2SF PrimFloat.nan) with S754_nan. reflexivity.
Qed.

Lemma div_nan_r x : (x / PrimFloat.nan)%float = PrimFloat.nan.
Proof.
  apply Prim2SF_inj. rewrite div_spec.
  change (Prim2SF PrimFloat.nan) with S754_nan.
  unfold SF64div. by destruct (Prim2SF x).
Qed.

Lemma add_nan_l x : (PrimFloat.nan + x)%float = PrimFloat.nan.
Proof.
  apply Prim2SF_inj. rewrite add_spec.
  change (Prim2SF PrimFloat.nan) with S754_nan. reflexivity.
Qed.

Lemma add_nan_r x : (x + PrimFloat.nan)%float = PrimFloat.nan.
Proof.
  apply Prim2SF_inj. rewrite add_spec.
  change (Prim2SF PrimFloat.nan) with S754_nan.
  unfold SF64add. by destruct (Prim2SF x).
Qed.

(** ** No overflow in the scaling *)

Lemma digits2_pos_size p : digits2_pos p = Pos.size p.
Proof. induction p as [p IH|p IH|]; cbn; by rewrite ?IH. Qed.

Lemma Zdigits2_gt m : (0 ≤ m → m < 2 ^ Zdigits2 m)%Z.
Proof.
  destruct m as [|p|p]; [done| |lia]. intros _. cbn [Zdigits2].
  rewrite digits2_pos_size. pose proof (Pos.size_gt p) as H.
  apply Pos2Z.pos_lt_pos in H. by rewrite Pos2Z.inj_pow in H.
Qed.

Lemma Zdigits2_le m D : (0 ≤ D → 0 ≤ m < 2 ^ D → Zdigits2 m ≤ D)%Z.
Proof.
  destruct m as [|p|p]; [done| |lia]. intros HD [_ Hm]. cbn [Zdigits2].
  rewrite digits2_pos_size. pose proof (Pos.size_le p) as H.
  apply Pos2Z.pos_le_pos in H. rewrite Pos2Z.inj_pow in H.
  assert (2 ^ Z.pos (Pos.size p) < 2 ^ (D + 1))%Z as Hlt.
  { rewrite Z.pow_add_r by lia. lia. }
  apply Z.pow_lt_mono_r_iff in Hlt; lia.
Qed.

Lemma shr_1_bound mrs M :
  (0 ≤ shr_m mrs ≤ M → 0 ≤ shr_m (shr_1 mrs) ≤ M)%Z.
Proof. destruct mrs as [[|[p|p|]|p] r s]; cbn; lia. Qed.

Lemma iter_pos_shr_1_bound p : ∀ mrs M,
  (0 ≤ shr_m mrs ≤ M → 0 ≤ shr_m (SpecFloat.iter_pos shr_1 p mrs) ≤ M)%Z.
Proof.
  induction p as [p IH|p IH|]; intros mrs M H; cbn [SpecFloat.iter_pos].
  - by apply IH, IH, shr_1_bound.
  - by apply IH, IH.
  - by apply shr_1_bound.
Qed.

Lemma shr_fexp_bound m e l :
  (0 ≤ m)%Z →
  (0 ≤ shr_m (shr_fexp prec emax m e l).1 ≤ m)%Z
  ∧ (shr_fexp prec emax m e l).2 = Z.max e (fexp prec emax (Zdigits2 m + e)).
Proof.
  intros Hm. unfold shr_fexp, shr.
  assert (shr_m (shr_record_of_loc m l) = m) as Hrec by (by destruct l as [|[]]).
  destruct (fexp prec emax (Zdigits2 m + e) - e)%Z as [|p|p] eqn:Hn; cbn [fst snd].
  - rewrite Hrec. lia.
  - split; [apply iter_pos_shr_1_bound; rewrite Hrec; lia|lia].
  - rewrite Hrec. lia.
Qed.

Lemma round_nearest_even_bound m l :
  (m ≤ round_nearest_even m l ≤ m + 1)%Z.
Proof. destruct l as [|[]]; cbn; try destruct (Z.even m); lia. Qed.

(** Rounding a mantissa below [2 ^ D] at an exponent below [K] gives a
    zero or a finite number. *)
Lemma binary_round_aux_finite s m e l D K :
  (0 ≤ D → 0 ≤ m < 2 ^ D → e ≤ K → -1074 ≤ K → D + e - 53 ≤ K →
   K ≤ 971 → D + K - 52 ≤ 971 →
   binary_round_aux prec emax s m e l = S754_zero s
   ∨ ∃ m' e', binary_round_aux prec emax s m e l = S754_finite s m' e'
              ∧ e' ≤ Z.max K (D + K - 52))%Z.
Proof.
  intros HD Hm He HK HDe HK' HDK. unfold binary_round_aux.
  destruct (shr_fexp_bound m e l) as [Hm1 He1]; [lia|].
  destruct (shr_fexp prec emax m e l) as [mrs1 e1]. cbn [fst snd] in Hm1, He1.
  pose proof (round_nearest_even_bound (shr_m mrs1) (loc_of_shr_record mrs1)) as Hr.
  set (m1 := round_nearest_even (shr_m mrs1) (loc_of_shr_record mrs1)) in *.
  destruct (shr_fexp_bound m1 e1 loc_Exact) as [Hm2 He2]; [lia|].
  destruct (shr_fexp prec emax m1 e1 loc_Exact) as [mrs2 e2]. cbn [fst snd] in Hm2, He2.
  assert (Zdigits2 m ≤ D)%Z as Hd by (by apply Zdigits2_le).
  assert (Zdigits2 m1 ≤ D + 1)%Z as Hd1.
  { apply Zdigits2_le; [lia|]. rewrite Z.pow_add_r by lia. lia. }
  assert (e1 ≤ K)%Z as He1' by (unfold fexp, emin, prec, emax in He1; lia).
  assert (e2 ≤ Z.max K (D + K - 52))%Z as He2'
    by (unfold fexp, emin, prec, emax in He2; lia).
  destruct (shr_m mrs2) as [|p|p]; [by left| |lia].
  right. exists p, e2. split; [|done].
  assert ((e2 <=? emax - prec)%Z = true) as ->; [|done].
  apply Z.leb_le. unfold prec, emax. lia.
Qed.

Lemma bounded_inv m e :
  bounded prec emax m e = true →
  (1 ≤ Z.pos (digits2_pos m) ≤ 53 ∧ -1074 ≤ e ≤ 971 ∧ Z.pos m < 2 ^ 53)%Z.
Proof.
  unfold bounded, canonical_mantissa, fexp, emin, prec, emax.
  intros [Hc He]%andb_true_iff. apply Z.eqb_eq in Hc. apply Z.leb_le in He.
  assert (Z.pos (digits2_pos m) ≤ 53)%Z as Hd by lia.
  split; [lia|]. split; [lia|].
  pose proof (Zdigits2_gt (Z.pos m)) as Hgt. cbn [Zdigits2] in Hgt.
  eapply Z.lt_le_trans; [apply Hgt; lia|]. apply Z.pow_le_mono_r; lia.
Qed.

(** The square root of a finite number is far from overflow. *)
Lemma SFsqrt_finite m e :
  bounded prec emax m e = true →
  SFsqrt prec emax (S754_finite false m e) = S754_zero false
  ∨ ∃ m' e', SFsqrt prec emax (S754_finite false m e) = S754_finite false m' e'
             ∧ (e' ≤ 913)%Z.
Proof.
  intros (Hd & He & Hm)%bounded_inv. cbn [SFsqrt]. unfold SFsqrt_core_binary.
  cbn [Zdigits2].
  set (d := Z.pos (digits2_pos m)) in *.
  set (e' := Z.min (fexp prec emax (Z.div2 (d + e + 1))) (Z.div2 e)).
  assert (e' ≤ 600 ∧ e - e' ≤ 600 ∧ 0 ≤ e - 2 * e' ≤ 300)%Z as (He' & Hee' & Hs).
  { unfold e', fexp, emin, prec, emax. rewrite !Z.div2_div.
    pose proof (Z.div_mod (d + e + 1) 2). pose proof (Z.mod_pos_bound (d + e + 1) 2).
    pose proof (Z.div_mod e 2). pose proof (Z.mod_pos_bound e 2). lia. }
  set (m' := match (e - 2 * e')%Z with
             | Z.pos _ => Z.shiftl (Z.pos m) (e - 2 * e')
             | 0%Z => Z.pos m
             | Z.neg _ => 0%Z
             end).
  assert (0 ≤ m' < 2 ^ (53 + (e - 2 * e')))%Z as Hm'.
  { unfold m'. destruct (e - 2 * e')%Z as [|p|p] eqn:Hse; [lia| |lia].
    rewrite Z.shiftl_mul_pow2, Z.pow_add_r by lia.
    assert (0 < 2 ^ Z.pos p)%Z by (apply Z.pow_pos_nonneg; lia). nia. }
  pose proof (Z.sqrtrem_sqrt m') as Hq.
  destruct (Z.sqrtrem m') as [q r]. cbn [fst] in Hq.
  assert (0 ≤ q ≤ m')%Z as Hqm.
  { rewrite Hq. split; [apply Z.sqrt_nonneg|apply Z.sqrt_le_lin; lia]. }
  destruct (binary_round_aux_finite false q e'
              (if (r =? 0)%Z then loc_Exact
               else loc_Inexact (if (r <=? q)%Z then Lt else Gt))
              (53 + (e - 2 * e')) 600)
    as [H|(m2 & e2 & H & Hb)]; try lia.
  - by left.
  - right. exists m2, e2. split; [done|lia].
Qed.

Lemma SFmul_sqrt_252_finite s m e :
  bounded prec emax m e = true → (e ≤ 913)%Z →
  SFmul prec emax (S754_finite s m e) sqrt_252 = S754_zero s
  ∨ ∃ m' e', SFmul prec emax (S754_finite s m e) sqrt_252 = S754_finite s m' e'.
Proof.
  intros (Hd & He & Hm)%bounded_inv Hle. cbn [SFmul sqrt_252]. rewrite xorb_false_r.
  destruct (binary_round_aux_finite s (Z.pos (m * 8936553463969119)) (e + -49)
              loc_Exact 106 (e + 4)) as [H|(m2 & e2 & H & _)]; try lia.
  - by left.
  - right. by exists m2, e2.
Qed.

Lemma is_finite_SF x :
  PrimFloat.is_finite x =
    match Prim2SF x with
    | S754_zero _ | S754_finite _ _ _ => true
    | _ => false
    end.
Proof.
  unfold PrimFloat.is_finite, PrimFloat.is_nan, PrimFloat.is_infinity.
  rewrite !FloatAxioms.eqb_spec, abs_spec.
  change (Prim2SF infinity) with (S754_infinity false).
  destruct (Prim2SF x) as [[]|[]| |[] m e]; try done;
    unfold SFeqb, SFabs, SFcompare; by rewrite Z.compare_refl, Pos.compare_cont_refl.
Qed.

(** Scaling a square root by the square root of 252 never overflows: the
    product is finite exactly when the square root is. *)
Lemma sqrt_scaled_finite x :
  PrimFloat.is_finite (PrimFloat.sqrt x * PrimFloat.sqrt 252)
  = PrimFloat.is_finite (PrimFloat.sqrt x).
Proof.
  rewrite !is_finite_SF, mul_spec.
  change (Prim2SF (PrimFloat.sqrt 252)) with sqrt_252.
  pose proof (Prim2SF_valid (PrimFloat.sqrt x)) as Hvalid.
  pose proof (Prim2SF_valid x) as Hx.
  rewrite sqrt_spec in *. unfold SF64sqrt, SF64mul in *.
  destruct (Prim2SF x) as [s|s| |s m e].
  - done.
  - by destruct s.
  - done.
  - destruct s; [done|]. cbn [valid_binary] in Hx.
    destruct (SFsqrt_finite m e Hx) as [->|(m' & e' & Hs & He')]; [done|].
    rewrite Hs in *. cbn [valid_binary] in Hvalid.
    by destruct (SFmul_sqrt_252_finite false m' e' Hvalid He') as [->|(m2 & e2 & ->)].
Qed.

(** ** Alias matching *)

Lemma in_index_true name (df : DataFrame) : in_index name df = true ↔ is_Some (df !! name).
Proof. unfold in_index. apply bool_decide_eq_true. Qed.

Lemma in_index_false name (df : DataFrame) : in_index name df = false ↔ df !! name = None.
Proof.
  unfold in_index. rewrite bool_decide_eq_false, eq_None_not_Some. done.
Qed.

Lemma first_row_value_first_match (df : DataFrame) names name row :
  first_match df names name → df !! name = Some row →
  first_row_value names df = (v ← iloc0 row; Ok (Some v)).
Proof.
  induction 1 as [name rest Hin|name' rest name Hout _ IH]; intros Hrow; simpl.
  - apply in_index_true in Hin. rewrite Hin. unfold loc. rewrite Hrow. reflexivity.
  - apply in_index_false in Hout. rewrite Hout. by apply IH.
Qed.

Lemma first_row_value_matched (df : DataFrame) names v :
  matched_value df names v → first_row_value names df = Ok (Some v).
Proof.
  intros (name & older & Hm & Hrow).
  by rewrite (first_row_value_first_match _ _ _ _ Hm Hrow).
Qed.

Lemma first_row_value_no_match (df : DataFrame) names :
  no_match df names → first_row_value names df = Ok None.
Proof.
  induction 1 as [|name rest Hout _ IH]; simpl; [done|].
  apply in_index_false in Hout. by rewrite Hout.
Qed.

Lemma first_row_value_Some (df : DataFrame) names v :
  first_row_value names df = Ok (Some v) → matched_value df names v.
Proof.
  induction names as [|name rest IH]; simpl; [done|].
  destruct (in_index name df) eqn:Hin.
  - apply in_index_true in Hin. destruct Hin as [row Hrow].
    unfold loc. rewrite Hrow. simpl.
    destruct row as [|x older]; simpl; [done|]. intros [= ->].
    exists name, older. split; [|done]. constructor. by eexists.
  - apply in_index_false in Hin. intros H.
    destruct (IH H) as (m & older & Hm & Hrow).
    exists m, older. split; [|done]. by constructor.
Qed.

(** ** Reductions of a column

    [Np.sum] adds every entry once; [mean] and [std] are an arithmetic mean
    and a sample deviation of the entries that are not NaN. *)

Lemma dropna_all xs :
  Forall (λ x, PrimFloat.is_nan x = false) xs → dropna xs = xs.
Proof.
  unfold dropna. induction 1 as [|x xs Hx _ IH]; [done|].
  cbn [List.filter]. unfold notna at 1. rewrite Hx. cbn [negb]. by rewrite IH.
Qed.

Lemma float_sum_add_each ys res a :
  float_sum ys res → float_sum (ys ++ a)%list (Np.add_each res a).
Proof.
  revert ys res. induction a as [|x a IH]; intros ys res H; cbn.
  - by rewrite app_nil_r.
  - change (x :: a) with ([x] ++ a)%list. rewrite (assoc_L app).
    apply IH. apply float_sum_app; [done|constructor].
Qed.

Lemma float_sum_add_lanes ls r block :
  Forall2 float_sum ls r → length block = length r →
  Forall2 float_sum (zip_with (λ l x, l ++ [x])%list ls block) (Np.add_lanes r block).
Proof.
  intros H. revert block. induction H as [|l x ls r Hl _ IH]; intros block Hlen.
  - destruct block; [constructor|done].
  - destruct block as [|b block]; [done|]. cbn.
    constructor; [|apply IH; by injection Hlen].
    apply float_sum_app; [done|constructor].
Qed.

Lemma concat_snoc_each {A} (ls : list (list A)) block :
  length block = length ls →
  concat (zip_with (λ l x, l ++ [x])%list ls block) ≡ₚ (concat ls ++ block)%list.
Proof.
  revert block. induction ls as [|l ls IH]; intros [|b block] Hlen; try done.
  cbn. rewrite IH by (by injection Hlen).
  rewrite <-!(assoc_L app). f_equiv. cbn.
  by rewrite Permutation_middle.
Qed.

Lemma unrolled_float_sum blocks : ∀ ls r a,
  Forall2 float_sum ls r → length r = 8%nat → (8 * blocks ≤ length a)%nat →
  ∃ ls', Forall2 float_sum ls' (Np.unrolled blocks r a).1
         ∧ length (Np.unrolled blocks r a).1 = 8%nat
         ∧ (concat ls' ++ (Np.unrolled blocks r a).2)%list ≡ₚ (concat ls ++ a)%list.
Proof.
  induction blocks as [|blocks IH]; intros ls r a Hls Hr Ha; cbn [Np.unrolled].
  - by exists ls.
  - assert (length (take 8 a) = 8%nat) as Htake by (rewrite length_take; lia).
    destruct (IH (zip_with (λ l x, l ++ [x])%list ls (take 8 a))
                (Np.add_lanes r (take 8 a)) (drop 8 a)) as (ls' & Hls' & Hlen & Hperm).
    + apply float_sum_add_lanes; [done|congruence].
    + unfold Np.add_lanes. rewrite length_zip_with. lia.
    + rewrite length_drop. lia.
    + exists ls'. split; [done|]. split; [done|].
      rewrite Hperm, concat_snoc_each.
      * by rewrite <-(assoc_L app), take_drop.
      * rewrite Htake. apply Forall2_length in Hls. lia.
Qed.

Lemma float_sum_singletons r : Forall2 float_sum (map (λ x, [x]) r) r.
Proof. induction r; constructor; [constructor|done]. Qed.

Lemma concat_singletons {A} (r : list A) : concat (map (λ x, [x]) r) = r.
Proof. induction r; [done|]. cbn. by f_equal. Qed.

Lemma block_sum_float_sum a : (8 ≤ length a)%nat → float_sum a (Np.block_sum a).
Proof.
  intros Hlen. unfold Np.block_sum.
  destruct (unrolled_float_sum (length a / 8 - 1) (map (λ x, [x]) (take 8 a))
              (take 8 a) (drop 8 a)) as (ls & Hls & Hr & Hperm).
  - apply float_sum_singletons.
  - rewrite length_take. lia.
  - rewrite length_drop. pose proof (Nat.div_mod_eq (length a) 8). lia.
  - rewrite concat_singletons, take_drop in Hperm.
    destruct (Np.unrolled _ _ _) as [r rest]. cbn [fst snd] in *.
    apply (float_sum_perm _ _ _ Hperm). apply float_sum_add_each.
    destruct r as [|r0 [|r1 [|r2 [|r3 [|r4 [|r5 [|r6 [|r7 [|]]]]]]]]]; try done.
    apply Forall2_cons_inv_r in Hls as (l0 & ls0 & H0 & Hls & ->).
    apply Forall2_cons_inv_r in Hls as (l1 & ls1 & H1 & Hls & ->).
    apply Forall2_cons_inv_r in Hls as (l2 & ls2 & H2 & Hls & ->).
    apply Forall2_cons_inv_r in Hls as (l3 & ls3 & H3 & Hls & ->).
    apply Forall2_cons_inv_r in Hls as (l4 & ls4 & H4 & Hls & ->).
    apply Forall2_cons_inv_r in Hls as (l5 & ls5 & H5 & Hls & ->).
    apply Forall2_cons_inv_r in Hls as (l6 & ls6 & H6 & Hls & ->).
    apply Forall2_cons_inv_r in Hls as (l7 & ls7 & H7 & Hls & ->).
    apply Forall2_nil_inv_r in Hls as ->.
    assert (float_sum (((l0 ++ l1) ++ (l2 ++ l3)) ++ ((l4 ++ l5) ++ (l6 ++ l7)))%list
              (((r0 + r1) + (r2 + r3)) + ((r4 + r5) + (r6 + r7)))%float) as Htree
      by (repeat apply float_sum_app; assumption).
    cbn [Np.lane nth concat]. rewrite app_nil_r.
    rewrite <-!app_assoc in Htree. exact Htree.
Qed.

Lemma pairwise_sum_float_sum depth a : float_sum a (Np.pairwise_sum depth a).
Proof.
  revert a. induction depth as [|depth IH]; intros a; cbn [Np.pairwise_sum].
  - destruct (length a <? 8)%nat eqn:H8.
    + apply (float_sum_add_each [] 0%float a). constructor.
    + apply Nat.ltb_ge in H8. destruct (length a <=? 128)%nat; by apply block_sum_float_sum.
  - destruct (length a <? 8)%nat eqn:H8.
    + apply (float_sum_add_each [] 0%float a). constructor.
    + apply Nat.ltb_ge in H8. destruct (length a <=? 128)%nat;
        [by apply block_sum_float_sum|].
      rewrite <-(take_drop (length a / 2 - (length a / 2) mod 8) a) at 1.
      by apply float_sum_app.
Qed.

Lemma sum_float_sum a : float_sum a (Np.sum a).
Proof.
  unfold Np.sum. apply (float_sum_app [] a); [constructor|apply pairwise_sum_float_sum].
Qed.

(** The nesting of the cuts never exceeds the length of the array. *)
Lemma pairwise_sum_depth depth : ∀ depth' a,
  (length a ≤ depth)%nat → (length a ≤ depth')%nat →
  Np.pairwise_sum depth a = Np.pairwise_sum depth' a.
Proof.
  induction depth as [|depth IH]; intros depth' a Hd Hd'.
  - destruct a; [|cbn in Hd; lia]. by destruct depth'.
  - destruct depth' as [|depth'].
    { destruct a; [done|cbn in Hd'; lia]. }
    cbn [Np.pairwise_sum].
    destruct (length a <? 8)%nat; [done|].
    destruct (length a <=? 128)%nat eqn:H128; [done|].
    apply Nat.leb_gt in H128.
    pose proof (Nat.div_mod_eq (length a) 2) as Hdiv.
    pose proof (Nat.mod_upper_bound (length a) 2) as Hmod2.
    pose proof (Nat.mod_upper_bound (length a / 2) 8) as Hmod8.
    f_equal; apply IH; rewrite ?length_take, ?length_drop; lia.
Qed.

Lemma pairwise_sum_unfold a :
  let n := length a in
  Np.pairwise_sum n a =
    if (n <? 8)%nat then Np.add_each 0 a
    else if (n <=? 128)%nat then Np.block_sum a
    else
      let n2 := (n / 2 - (n / 2) mod 8)%nat in
      (Np.pairwise_sum n2 (take n2 a) + Np.pairwise_sum (n - n2) (drop n2 a))%float.
Proof.
  cbv zeta. destruct (length a) as [|n] eqn:Hn; [by destruct a|].
  cbn [Np.pairwise_sum]. rewrite Hn.
  destruct (S n <? 8)%nat; [done|].
  destruct (S n <=? 128)%nat eqn:H128; [done|].
  apply Nat.leb_gt in H128.
  pose proof (Nat.div_mod_eq (S n) 2) as Hdiv.
  pose proof (Nat.mod_upper_bound (S n) 2) as Hmod2.
  pose proof (Nat.mod_upper_bound (S n / 2) 8) as Hmod8.
  f_equal; apply pairwise_sum_depth; rewrite ?length_take, ?length_drop; lia.
Qed.

(** ** Zeros do not count *)

Lemma float_sum_without_zero l s :
  float_sum l s → ∀ xs, l ≡ₚ 0%float :: xs → float_sum xs s.
Proof.
  induction 1 as [|x|l1 l2 a b H1 IH1 H2 IH2|l l' a Hperm H IH]; intros xs Hxs.
  - by apply Permutation_nil_cons in Hxs.
  - apply Permutation_singleton_l in Hxs. injection Hxs as -> <-. constructor.
  - assert (0%float ∈ (l1 ++ l2)%list) as Hin by (rewrite Hxs; left).
    apply elem_of_app in Hin as [Hin|Hin];
      apply elem_of_Permutation in Hin as [k Hk].
    + apply float_sum_perm with (k ++ l2)%list.
      * apply (Permutation_cons_inv (a := 0%float)). by rewrite <-Hxs, Hk.
      * apply float_sum_app; [by apply IH1|done].
    + apply float_sum_perm with (l1 ++ k)%list.
      * apply (Permutation_cons_inv (a := 0%float)).
        by rewrite <-Hxs, Hk, Permutation_middle.
      * apply float_sum_app; [done|by apply IH2].
  - apply IH. by rewrite Hperm.
Qed.

Lemma float_sum_without_zeros k xs s :
  float_sum (replicate k 0%float ++ xs)%list s → float_sum xs s.
Proof.
  induction k as [|k IH]; [done|]. cbn. intros H. apply IH.
  by apply (float_sum_without_zero _ _ H).
Qed.

(** A column with its NaN entries masked is, up to order, the entries that
    are not NaN and one zero per NaN. *)
Lemma masked_perm (g : float → float) xs :
  map (λ x, if PrimFloat.is_nan x then 0%float else g x) xs
  ≡ₚ (replicate (length xs - count xs) 0%float ++ map g (dropna xs))%list.
Proof.
  unfold count, dropna. induction xs as [|x xs IH]; [done|].
  pose proof (List.filter_length_le notna xs) as Hle.
  cbn [map List.filter]. destruct (PrimFloat.is_nan x) eqn:Hx.
  - assert (notna x = false) as -> by (unfold notna; by rewrite Hx).
    cbn [length].
    replace (S (length xs) - length (List.filter notna xs))%nat
      with (S (length xs - length (List.filter notna xs))) by lia.
    cbn [replicate]. rewrite IH. reflexivity.
  - assert (notna x = true) as -> by (unfold notna; by rewrite Hx).
    cbn [length map].
    replace (S (length xs) - S (length (List.filter notna xs)))%nat
      with (length xs - length (List.filter notna xs))%nat by lia.
    rewrite IH. apply Permutation_middle.
Qed.

Lemma putmask_isna xs :
  putmask xs (isna xs) 0 = map (λ x, if PrimFloat.is_nan x then 0%float else x) xs.
Proof.
  unfold putmask, isna. induction xs as [|x xs IH]; [done|]. cbn. by rewrite IH.
Qed.

Lemma putmask_map_isna (g : float → float) xs :
  putmask (map g (putmask xs (isna xs) 0)) (isna xs) 0
  = map (λ x, if PrimFloat.is_nan x then 0%float else g x) xs.
Proof.
  unfold putmask, isna. induction xs as [|x xs IH]; [done|]. cbn. rewrite IH.
  by destruct (PrimFloat.is_nan x).
Qed.

Lemma float_sum_masked (g : float → float) xs s :
  float_sum (map (λ x, if PrimFloat.is_nan x then 0%float else g x) xs) s →
  float_sum (map g (dropna xs)) s.
Proof.
  intros H. apply float_sum_without_zeros with (length xs - count xs)%nat.
  by apply (float_sum_perm _ _ _ (masked_perm g xs)).
Qed.

(** ** [mean] and [std] against the vocabulary *)

Lemma mean_arithmetic xs :
  (0 < count xs)%nat → arithmetic_mean (dropna xs) (mean xs).
Proof.
  intros Hc. unfold mean. apply Nat.ltb_lt in Hc as ->.
  exists (Np.sum (putmask xs (isna xs) 0)). split; [|done].
  rewrite putmask_isna. rewrite <-(map_id (dropna xs)).
  apply (float_sum_masked (λ x, x)). apply sum_float_sum.
Qed.

Lemma std_sample_std xs :
  (2 ≤ count xs)%nat → sample_std (dropna xs) (std xs).
Proof.
  intros Hc. unfold std, var.
  assert ((count xs <=? 1)%nat = false) as -> by (apply Nat.leb_gt; lia).
  cbv zeta.
  exists (Np.sum (putmask xs (isna xs) 0) / of_nat (count xs))%float, (Np.sum
    (putmask (map (λ v, ((Np.sum (putmask xs (isna xs) 0) / of_nat (count xs) - v)
                        * (Np.sum (putmask xs (isna xs) 0) / of_nat (count xs) - v))%float)
               (putmask xs (isna xs) 0)) (isna xs) 0)).
  repeat apply conj.
  - exists (Np.sum (putmask xs (isna xs) 0)). split; [|done].
    rewrite putmask_isna. rewrite <-(map_id (dropna xs)).
    apply (float_sum_masked (λ x, x)). apply sum_float_sum.
  - rewrite putmask_map_isna.
    apply (float_sum_masked (λ x, _)). apply sum_float_sum.
  - done.
Qed.

(** A sum with a NaN entry is NaN. *)
Lemma float_sum_nan xs s : float_sum xs s → PrimFloat.nan ∈ xs → s = PrimFloat.nan.
Proof.
  induction 1 as [|x|l1 l2 a b H1 IH1 H2 IH2|l l' a Hperm H IH]; intros Hin.
  - by apply elem_of_nil in Hin.
  - by apply list_elem_of_singleton in Hin.
  - apply elem_of_app in Hin as [Hin|Hin].
    + rewrite (IH1 Hin). apply add_nan_l.
    + rewrite (IH2 Hin). apply add_nan_r.
  - apply IH. by rewrite Hperm.
Qed.

Lemma shifted_pairs (f : float → float → float) c (l : list float) :
  zip_with f l (removelast (c :: l)) = zip_with (λ p x, f x p) (c :: l) l.
Proof.
  revert c. induction l as [|x l IH]; intros c; [done|].
  change (removelast (c :: x :: l)) with (c :: removelast (x :: l)).
  cbn [zip_with]. by rewrite IH.
Qed.

(** [pct_change] is a NaN followed by the day-over-day changes. *)
Lemma pct_change_day_over_day c cs :
  pct_change (c :: cs) = PrimFloat.nan :: day_over_day (c :: cs).
Proof.
  unfold pct_change, day_over_day, shift1. cbn [zip_with tail].
  rewrite shifted_pairs. f_equal.
  rewrite div_nan_r. reflexivity.
Qed.

Lemma dropna_pct_change cs : dropna (pct_change cs) = dropna (day_over_day cs).
Proof. destruct cs as [|c cs]; [done|]. by rewrite pct_change_day_over_day. Qed.

Lemma fill_all xs :
  Forall (λ x, PrimFloat.is_nan x = false) xs → putmask xs (isna xs) 0 = xs.
Proof.
  rewrite putmask_isna. induction 1 as [|x xs Hx _ IH]; [done|].
  cbn [map]. by rewrite Hx, IH.
Qed.

Lemma sum_short xs :
  (length xs < 8)%nat → Np.sum xs = (0 + fold_left PrimFloat.add xs 0)%float.
Proof.
  intros Hlen. unfold Np.sum. rewrite pairwise_sum_unfold. cbv zeta.
  apply Nat.ltb_lt in Hlen. by rewrite Hlen.
Qed.

Lemma mean_short xs :
  Forall (λ x, PrimFloat.is_nan x = false) xs → (0 < length xs < 8)%nat →
  mean xs = ((0 + fold_left PrimFloat.add xs 0) / of_nat (length xs))%float.
Proof.
  intros Hxs [H0 H8]. unfold mean, count. rewrite fill_all, dropna_all by done.
  apply Nat.ltb_lt in H0 as ->. by rewrite sum_short.
Qed.

Lemma mean_all_nan xs : count xs = 0%nat → mean xs = PrimFloat.nan.
Proof. intros H. unfold mean. by rewrite H. Qed.

Lemma std_two_changes x0 r1 r2 :
  PrimFloat.is_nan x0 = true → PrimFloat.is_nan r1 = false → PrimFloat.is_nan r2 = false →
  std [x0; r1; r2] =
    let avg := ((0 + (0 + r1 + r2)) / 2)%float in
    PrimFloat.sqrt ((0 + (0 + (avg - r1) * (avg - r1) + (avg - r2) * (avg - r2))) / 1)%float.
Proof.
  intros H0 H1 H2. unfold std, var, count, dropna, isna, putmask.
  cbn [map List.filter zip_with]. unfold notna. rewrite H0, H1, H2. cbn [negb length].
  reflexivity.
Qed.

(** ** Too few returns for a sample deviation *)

Lemma count_cons_nan x xs : PrimFloat.is_nan x = true → count (x :: xs) = count xs.
Proof.
  intros Hx. unfold count, dropna. cbn [List.filter].
  unfold notna at 1. by rewrite Hx.
Qed.

Lemma count_le_length xs : (count xs ≤ length xs)%nat.
Proof. unfold count, dropna. apply List.filter_length_le. Qed.

Lemma count_pct_change_short cs :
  (length cs < 3)%nat → (count (pct_change cs) ≤ 1)%nat.
Proof.
  destruct cs as [|c0 [|c1 [|c2 cs]]]; intros Hlen.
  - etrans; [apply count_le_length|]. simpl. lia.
  - change (pct_change [c0]) with [(c0 / PrimFloat.nan - 1)%float].
    rewrite count_cons_nan by apply div_nan_sub_one.
    etrans; [apply count_le_length|]. simpl. lia.
  - change (pct_change [c0; c1])
      with [(c0 / PrimFloat.nan - 1)%float; (c1 / c0 - 1)%float].
    rewrite count_cons_nan by apply div_nan_sub_one.
    etrans; [apply count_le_length|]. simpl. lia.
  - simpl in Hlen. lia.
Qed.

Lemma volatility_short hist :
  (length hist < 3)%nat → volatility_of hist = PrimFloat.nan.
Proof.
  intros Hlen. unfold volatility_of, std, var.
  assert (count (pct_change (closes hist)) ≤ 1)%nat as Hc.
  { apply count_pct_change_short. unfold closes. by rewrite length_map. }
  apply Nat.leb_le in Hc. rewrite Hc. reflexivity.
Qed.

(** ** Reading the record *)

Lemma snapshot_sector t now s : snapshot t now s !! "sector" = Some (info_field t "sector").
Proof. snapshot_lookup. Qed.
Lemma snapshot_industry t now s : snapshot t now s !! "industry" = Some (info_field t "industry").
Proof. snapshot_lookup. Qed.
Lemma snapshot_eps t now s : snapshot t now s !! "eps" = Some (info_field t "trailingEps").
Proof. snapshot_lookup. Qed.
Lemma snapshot_pe_ratio t now s : snapshot t now s !! "pe_ratio" = Some (info_field t "trailingPE").
Proof. snapshot_lookup. Qed.
Lemma snapshot_roe t now s : snapshot t now s !! "roe" = Some (info_field t "returnOnEquity").
Proof. snapshot_lookup. Qed.
Lemma snapshot_debt_to_equity t now s :
  snapshot t now s !! "debt_to_equity" = Some (info_field t "debtToEquity").
Proof. snapshot_lookup. Qed.
Lemma snapshot_profit_margin t now s :
  snapshot t now s !! "profit_margin" = Some (info_field t "profitMargins").
Proof. snapshot_lookup. Qed.
Lemma snapshot_total_revenue t now s :
  snapshot t now s !! "total_revenue" = Some (revenue_field t).
Proof. snapshot_lookup. Qed.
Lemma snapshot_current_ratio t now s :
  snapshot t now s !! "current_ratio" = Some (ratio_field t).
Proof. snapshot_lookup. Qed.
Lemma snapshot_volatility t now s :
  snapshot t now s !! "volatility" = Some (volatility_field t).
Proof. snapshot_lookup. Qed.
Lemma snapshot_liquidity t now s :
  snapshot t now s !! "liquidity" = Some (liquidity_field t).
Proof. snapshot_lookup. Qed.
Lemma snapshot_no_id t now s : snapshot t now s !! "_id" = None.
Proof. snapshot_lookup. Qed.

Lemma company_fields_null t now s :
  (∀ k, info_field t k = PNone) → Forall (null (snapshot t now s)) company_fields.
Proof.
  intros H. unfold company_fields, null.
  rewrite !Forall_cons, Forall_nil,
    snapshot_sector, snapshot_industry, snapshot_eps, snapshot_pe_ratio,
    snapshot_roe, snapshot_debt_to_equity, snapshot_profit_margin, !H.
  done.
Qed.

Lemma info_field_raise t e k : get_info t = Raise e → info_field t k = PNone.
Proof. unfold info_field. by intros ->. Qed.

Lemma is_Ok_false {A} (r : result A) : is_Ok r = false → ∃ e, r = Raise e.
Proof. destruct r; [done|eauto]. Qed.

(** Claim C1, at the failing inputs.  The quick-quote block is outside every
    [try]: when [Ticker.fast_info] raises, or when one of its lookups
    raises, [fetch_financials] raises that exception and returns no record,
    whatever the four other facets answer. *)
Theorem quote_failure_aborts_fetch e v info fin annual quarterly hist now s :
  fetch_financials
    (λ _, {| init := Ok tt;
             fast_info := Raise e; get_info := info; get_financials := fin;
             get_balance_sheet := annual;
             get_quarterly_balance_sheet := quarterly; history := hist |})
    now s = Raise e
  ∧ fetch_financials
      (λ _, {| init := Ok tt;
               fast_info :=
                 Ok {| fast_get := λ k, if String.eqb k "yearLow" then Raise e else Ok v |};
               get_info := info; get_financials := fin;
               get_balance_sheet := annual;
               get_quarterly_balance_sheet := quarterly; history := hist |})
      now s = Raise e.
Proof. split; reflexivity. Qed.

(** Claim C2.  Whenever [fetch_financials] returns, the keys of the record
    are exactly the documented field set, and every guarded facet whose
    fetch raised has [None] in each of its fields. *)
Theorem fetch_financials_documented_keys yf now s data :
  fetch_financials yf now s = Ok data →
  dom data = documented_keys
  ∧ (is_Ok (get_info (yf s)) = false → Forall (null data) company_fields)
  ∧ (is_Ok (get_financials (yf s)) = false → null data "total_revenue")
  ∧ (is_Ok (get_balance_sheet (yf s)) = false →
     is_Ok (get_quarterly_balance_sheet (yf s)) = false →
     null data "current_ratio")
  ∧ (is_Ok (history (yf s)) = false →
     null data "volatility" ∧ null data "liquidity").
Proof.
  intros [_ ->]%fetch_financials_inv. repeat apply conj.
  - apply snapshot_dom.
  - intros [e He]%is_Ok_false. apply company_fields_null.
    intros k. by apply info_field_raise with e.
  - intros [e He]%is_Ok_false. unfold null.
    rewrite snapshot_total_revenue. unfold revenue_field. by rewrite He.
  - intros [e He]%is_Ok_false [e' He']%is_Ok_false. unfold null.
    rewrite snapshot_current_ratio. unfold ratio_field. by rewrite He, He'.
  - intros [e He]%is_Ok_false. unfold null.
    rewrite snapshot_volatility, snapshot_liquidity.
    unfold volatility_field, liquidity_field. by rewrite He.
Qed.

(** C2 at a provider where only the quick quote answers. *)
Lemma fetch_financials_documented_keys_witness :
  let data := snapshot Examples.degraded Examples.now "acme" in
  fetch_financials (λ _, Examples.degraded) Examples.now "acme" = Ok data
  ∧ dom data = documented_keys
  ∧ Forall (null data) company_fields
  ∧ null data "total_revenue" ∧ null data "current_ratio"
  ∧ null data "volatility" ∧ null data "liquidity".
Proof.
  intros data.
  assert (fetch_financials (λ _, Examples.degraded) Examples.now "acme" = Ok data) as H
    by reflexivity.
  destruct (fetch_financials_documented_keys _ _ _ _ H) as (Hd & Hi & Hr & Hc & Hv).
  split; [exact H|]. split; [exact Hd|].
  split; [apply Hi; reflexivity|].
  split; [apply Hr; reflexivity|].
  split; [apply Hc; reflexivity|].
  apply Hv; reflexivity.
Defined.

(** Claim C3.  When the company-info lookup raises, the returned record has
    [None] in all seven fields of that facet at once. *)
Theorem company_info_failure_nulls_all_seven yf now s data e :
  fetch_financials yf now s = Ok data →
  get_info (yf s) = Raise e →
  Forall (null data) company_fields.
Proof.
  intros [_ ->]%fetch_financials_inv He. apply company_fields_null.
  intros k. by apply info_field_raise with e.
Qed.

(** C3 at the sample provider with the company-info lookup down. *)
Lemma company_info_failure_nulls_all_seven_witness :
  let t := Examples.with_info Examples.down Examples.acme in
  let data := snapshot t Examples.now "acme" in
  fetch_financials (λ _, t) Examples.now "acme" = Ok data
  ∧ get_info t = Raise (ProviderError "connection reset")
  ∧ Forall (null data) company_fields.
Proof.
  intros t data.
  assert (fetch_financials (λ _, t) Examples.now "acme" = Ok data) as H by reflexivity.
  assert (get_info t = Raise (ProviderError "connection reset")) as He by reflexivity.
  split; [exact H|]. split; [exact He|].
  exact (company_info_failure_nulls_all_seven _ _ _ _ _ H He).
Defined.

(** ** The current ratio *)

Lemma extract_current_ratio_matched (bs : DataFrame) a l :
  matched_value bs asset_keys a → matched_value bs liability_keys l →
  extract_current_ratio bs =
    if truthy (Some a) && truthy (Some l) && ne_zero (Some l)
    then Ok (Some (a / l)%float) else Ok None.
Proof.
  intros Ha Hl. unfold extract_current_ratio.
  rewrite (first_row_value_matched _ _ _ Ha), (first_row_value_matched _ _ _ Hl).
  cbv [mbind result_bind truediv]. reflexivity.
Qed.

Lemma extract_current_ratio_no_rows (bs : DataFrame) :
  no_match bs asset_keys → no_match bs liability_keys →
  extract_current_ratio bs = Ok None.
Proof.
  intros Ha Hl. unfold extract_current_ratio.
  by rewrite (first_row_value_no_match _ _ Ha), (first_row_value_no_match _ _ Hl).
Qed.

Lemma extract_current_ratio_zero_liabilities (bs : DataFrame) l v :
  matched_value bs liability_keys l → (l =? 0)%float = true →
  extract_current_ratio bs ≠ Ok (Some v).
Proof.
  intros Hl Hz. unfold extract_current_ratio.
  rewrite (first_row_value_matched _ _ _ Hl). cbv [mbind result_bind].
  destruct (first_row_value asset_keys bs) as [curr_assets|]; [|done].
  cbn [truthy ne_zero]. rewrite Hz. cbn [negb]. by rewrite andb_false_r.
Qed.

Lemma extract_current_ratio_Some (bs : DataFrame) q :
  extract_current_ratio bs = Ok (Some q) →
  ∃ a l, matched_value bs asset_keys a ∧ matched_value bs liability_keys l
         ∧ (a =? 0)%float = false ∧ (l =? 0)%float = false ∧ q = (a / l)%float.
Proof.
  unfold extract_current_ratio. cbv [mbind result_bind].
  destruct (first_row_value asset_keys bs) as [[a|]|] eqn:Ha; [| |done].
  - destruct (first_row_value liability_keys bs) as [[l|]|] eqn:Hl; [| |done].
    + cbn [truthy ne_zero truediv].
      destruct (a =? 0)%float eqn:Hza; [done|].
      destruct (l =? 0)%float eqn:Hzl; [done|].
      cbn [negb andb]. intros [= <-]. exists a, l.
      split; [by apply first_row_value_Some|].
      split; [by apply first_row_value_Some|]. done.
    + cbn [truthy]. by rewrite andb_false_r.
  - destruct (first_row_value liability_keys bs) as [[l|]|]; done.
Qed.

Lemma sheet_ratio_null_iff sheet :
  sheet_ratio sheet = PNone ↔ yields_null sheet.
Proof.
  unfold sheet_ratio, yields_null. destruct sheet as [bs|e]; [|done].
  destruct (extract_current_ratio bs) as [[v|]|e]; simpl; split; try done.
  intros H. by destruct (H v).
Qed.

(** The reasons for which the extraction on a sheet yields null: the fetch
    raised, a row is missing, or a matched operand compares equal to
    zero. *)
Lemma yields_null_reasons sheet :
  (∃ e, sheet = Raise e)
  ∨ (∃ bs, sheet = Ok bs
       ∧ (no_match bs asset_keys ∨ no_match bs liability_keys
          ∨ (∃ a, matched_value bs asset_keys a ∧ (a =? 0)%float = true)
          ∨ (∃ l, matched_value bs liability_keys l ∧ (l =? 0)%float = true))) →
  yields_null sheet.
Proof.
  intros [[e ->]|(bs & -> & Hwhy)]; [done|]. intros v Hv.
  destruct (extract_current_ratio_Some _ _ Hv) as (a & l & Ha & Hl & Hza & Hzl & _).
  apply first_row_value_matched in Ha, Hl.
  destruct Hwhy as [Hno|[Hno|[(a' & Ha' & Hz)|(l' & Hl' & Hz)]]].
  - apply first_row_value_no_match in Hno. congruence.
  - apply first_row_value_no_match in Hno. congruence.
  - apply first_row_value_matched in Ha'. congruence.
  - apply first_row_value_matched in Hl'. congruence.
Qed.

Lemma ratio_field_annual t v :
  sheet_ratio (get_balance_sheet t) = PFloat v → ratio_field t = PFloat v.
Proof. unfold ratio_field. by intros ->. Qed.

Lemma ratio_field_quarterly t :
  sheet_ratio (get_balance_sheet t) = PNone →
  ratio_field t = sheet_ratio (get_quarterly_balance_sheet t).
Proof. unfold ratio_field. by intros ->. Qed.

Lemma matched_value_head (df : DataFrame) name rest v older :
  df !! name = Some (v :: older) → matched_value df (name :: rest) v.
Proof. intros H. exists name, older. split; [|done]. constructor. by eexists. Qed.

Lemma matched_value_skip (df : DataFrame) name rest v :
  df !! name = None → matched_value df rest v → matched_value df (name :: rest) v.
Proof.
  intros H (m & older & Hm & Hrow). exists m, older. split; [|done]. by constructor.
Qed.

Lemma is_None_true v : is_None v = true → v = PNone.
Proof. by destruct v. Qed.

(** With the call of line 107 raising, the field is what the annual sheet
    gives. *)
Lemma ratio_field_annual_only t e :
  get_quarterly_balance_sheet t = Raise e →
  ratio_field t = sheet_ratio (get_balance_sheet t).
Proof.
  intros Hq. unfold ratio_field. rewrite Hq.
  destruct (is_None (sheet_ratio (get_balance_sheet t))) eqn:Hnone; [|done].
  by rewrite (is_None_true _ Hnone).
Qed.

(** Claim C4, at the failing input.  The annual half of the claim holds: an
    annual sheet whose matched current-assets and current-liabilities
    values (ordered aliases, first match wins) are [a] and [l] gives
    [current_ratio = a / l] unless one of them is zero, so 200 and 100 give
    2.0.  The quarterly half does not.  Line 107 calls
    [t.get_quarterly_balance_sheet()], a method the class [yfinance.Ticker]
    does not have; the [AttributeError] is swallowed by the bare [except] of
    line 109, and the field is what the annual sheet alone gives.  An annual
    sheet without the two rows therefore leaves [current_ratio = None],
    whatever quarterly figures the provider holds, where the claim promises
    2.0 for a quarterly 50 and 25: the retry is written, and it never
    reaches a quarterly sheet. *)
Theorem quarterly_fallback_never_yields yf now s data :
  fetch_financials yf now s = Ok data →
  no_quarterly_method (yf s) →
  data !! "current_ratio" = Some (sheet_ratio (get_balance_sheet (yf s)))
  ∧ (yields_null (get_balance_sheet (yf s)) → null data "current_ratio")
  ∧ (∀ annual,
      get_balance_sheet (yf s) = Ok annual →
      no_match annual asset_keys → no_match annual liability_keys →
      null data "current_ratio")
  ∧ (∀ annual a l,
      get_balance_sheet (yf s) = Ok annual →
      matched_value annual asset_keys a →
      matched_value annual liability_keys l →
      data !! "current_ratio"
      = Some (if (a =? 0)%float || (l =? 0)%float then PNone else PFloat (a / l)))
  ∧ (∀ annual,
      get_balance_sheet (yf s) = Ok annual →
      matched_value annual asset_keys 200 →
      matched_value annual liability_keys 100 →
      data !! "current_ratio" = Some (PFloat 2)).
Proof.
  intros [_ ->]%fetch_financials_inv Hq. unfold null.
  rewrite snapshot_current_ratio, (ratio_field_annual_only _ _ Hq).
  assert (∀ annual a l,
            get_balance_sheet (yf s) = Ok annual →
            matched_value annual asset_keys a →
            matched_value annual liability_keys l →
            sheet_ratio (get_balance_sheet (yf s))
            = if (a =? 0)%float || (l =? 0)%float then PNone else PFloat (a / l))
    as Hmatched.
  { intros annual a l Hbs Ha Hl. unfold sheet_ratio.
    rewrite Hbs, (extract_current_ratio_matched _ _ _ Ha Hl). cbn [truthy ne_zero].
    by destruct (a =? 0)%float, (l =? 0)%float. }
  repeat apply conj.
  - done.
  - intros Hnull. f_equal. by apply sheet_ratio_null_iff.
  - intros annual Hbs Ha Hl. f_equal. unfold sheet_ratio.
    by rewrite Hbs, (extract_current_ratio_no_rows _ Ha Hl).
  - intros annual a l Hbs Ha Hl. f_equal. by apply Hmatched with annual.
  - intros annual Hbs Ha Hl. f_equal. by rewrite (Hmatched annual _ _ Hbs Ha Hl).
Qed.

(** C4 at a provider that answers line 107 as [yfinance.Ticker] does: with
    an annual sheet without the two rows the field is [None]; with the
    sample annual sheet (200 and 100) it is 2.0. *)
Lemma quarterly_fallback_never_yields_witness :
  let t := Examples.with_sheets (Ok Examples.bare_sheet) Examples.no_such_method
             Examples.acme in
  let t' := Examples.with_sheets (Ok Examples.annual_sheet) Examples.no_such_method
              Examples.acme in
  fetch_financials (λ _, t) Examples.now "acme" = Ok (snapshot t Examples.now "acme")
  ∧ no_quarterly_method t
  ∧ null (snapshot t Examples.now "acme") "current_ratio"
  ∧ fetch_financials (λ _, t') Examples.now "acme" = Ok (snapshot t' Examples.now "acme")
  ∧ no_quarterly_method t'
  ∧ snapshot t' Examples.now "acme" !! "current_ratio" = Some (PFloat 2).
Proof.
  intros t t'.
  assert (fetch_financials (λ _, t) Examples.now "acme"
          = Ok (snapshot t Examples.now "acme")) as H by reflexivity.
  assert (fetch_financials (λ _, t') Examples.now "acme"
          = Ok (snapshot t' Examples.now "acme")) as H' by reflexivity.
  assert (no_quarterly_method t) as Hq by reflexivity.
  assert (no_quarterly_method t') as Hq' by reflexivity.
  split; [exact H|]. split; [exact Hq|]. split.
  - apply (proj1 (proj2 (proj2 (quarterly_fallback_never_yields _ _ _ _ H Hq)))
             Examples.bare_sheet); [reflexivity| |]; repeat constructor.
  - split; [exact H'|]. split; [exact Hq'|].
    apply (proj2 (proj2 (proj2 (proj2 (quarterly_fallback_never_yields _ _ _ _ H' Hq'))))
             Examples.annual_sheet).
    + reflexivity.
    + apply matched_value_skip; [reflexivity|].
      by apply matched_value_head with [180%float].
    + apply matched_value_skip; [reflexivity|].
      by apply matched_value_head with [90%float].
Defined.

(** ** Total revenue *)



(** Claim C6.  When the matched current-liabilities value compares equal to
    zero in the annual and in the quarterly sheet, [current_ratio] is
    [None], and the extraction returns no quotient on either sheet: the
    division is not reached. *)
Theorem zero_liabilities_null yf now s data annual quarterly la lq :
  fetch_financials yf now s = Ok data →
  get_balance_sheet (yf s) = Ok annual →
  get_quarterly_balance_sheet (yf s) = Ok quarterly →
  matched_value annual liability_keys la → (la =? 0)%float = true →
  matched_value quarterly liability_keys lq → (lq =? 0)%float = true →
  null data "current_ratio"
  ∧ (∀ v, extract_current_ratio annual ≠ Ok (Some v))
  ∧ (∀ v, extract_current_ratio quarterly ≠ Ok (Some v)).
Proof.
  intros [_ ->]%fetch_financials_inv Ha Hq Hla Hza Hlq Hzq.
  assert (∀ v, extract_current_ratio annual ≠ Ok (Some v)) as Hannual
    by (intros v; by apply extract_current_ratio_zero_liabilities with la).
  assert (∀ v, extract_current_ratio quarterly ≠ Ok (Some v)) as Hquarterly
    by (intros v; by apply extract_current_ratio_zero_liabilities with lq).
  split; [|done]. unfold null. rewrite snapshot_current_ratio. f_equal.
  rewrite ratio_field_quarterly; apply sheet_ratio_null_iff.
  - by rewrite Hq.
  - by rewrite Ha.
Qed.

(** C6 at a provider whose two sheets have liabilities 0. *)
Lemma zero_liabilities_null_witness :
  let t := Examples.with_sheets (Ok Examples.zero_liabilities_sheet)
             (Ok Examples.zero_liabilities_sheet) Examples.acme in
  fetch_financials (λ _, t) Examples.now "acme" = Ok (snapshot t Examples.now "acme")
  ∧ null (snapshot t Examples.now "acme") "current_ratio".
Proof.
  intros t.
  assert (fetch_financials (λ _, t) Examples.now "acme"
          = Ok (snapshot t Examples.now "acme")) as H by reflexivity.
  assert (matched_value Examples.zero_liabilities_sheet liability_keys 0) as Hl.
  { apply matched_value_skip; [reflexivity|]. by apply matched_value_head with []. }
  split; [exact H|].
  apply (zero_liabilities_null _ _ _ _ Examples.zero_liabilities_sheet
           Examples.zero_liabilities_sheet 0%float 0%float H);
    first [reflexivity | exact Hl].
Defined.

(** ** Volatility and liquidity *)

(** Claim C7 fails on a series of one bar: nothing raises, [std] of the
    single (NaN) return is NaN, so [volatility] is the float NaN and
    [liquidity] is 1000.0; neither field is [None]. *)
Lemma one_bar_series_is_not_null :
  let t := Examples.with_history (Ok Examples.one_bar) Examples.acme in
  let data := snapshot t Examples.now "acme" in
  fetch_financials (λ _, t) Examples.now "acme" = Ok data
  ∧ history t = Ok Examples.one_bar
  ∧ (length Examples.one_bar < 2)%nat
  ∧ data !! "volatility" = Some (PFloat PrimFloat.nan)
  ∧ data !! "liquidity" = Some (PFloat 1000)
  ∧ ¬ (null data "volatility" ∧ null data "liquidity").
Proof.
  intros t data.
  assert (data !! "volatility" = Some (PFloat PrimFloat.nan)) as Hv by reflexivity.
  repeat apply conj; try reflexivity.
  - simpl. lia.
  - unfold null. rewrite Hv. by intros [[=] _].
Qed.

(** Claim C7, amended.  In the record [fetch_financials] returns:
    - when the bar fetch raises, [volatility] and [liquidity] are both
      [None];
    - the two fields are [None] together: one is [None] exactly when the
      other is;
    - when the bar fetch returns a series, of any length, neither field is
      [None]; for a series of one or two bars [volatility] is NaN. *)
Theorem volatility_liquidity_null_together yf now s data :
  fetch_financials yf now s = Ok data →
  (is_Ok (history (yf s)) = false → null data "volatility" ∧ null data "liquidity")
  ∧ (null data "volatility" ↔ null data "liquidity")
  ∧ (∀ hist, history (yf s) = Ok hist →
       ¬ null data "volatility" ∧ ¬ null data "liquidity")
  ∧ (∀ hist, history (yf s) = Ok hist → (0 < length hist < 3)%nat →
       data !! "volatility" = Some (PFloat PrimFloat.nan)).
Proof.
  intros [_ ->]%fetch_financials_inv. unfold null.
  rewrite snapshot_volatility, snapshot_liquidity.
  unfold volatility_field, liquidity_field.
  repeat apply conj.
  - by intros [e ->]%is_Ok_false.
  - destruct (history (yf s)); [intros [=]|done].
  - destruct (history (yf s)); [intros [=]|done].
  - intros hist ->. split; intros [=].
  - intros hist -> [_ Hlen]. by rewrite volatility_short.
Qed.

(** C7 (amended) at a provider whose bar fetch raises. *)
Lemma volatility_liquidity_null_together_witness :
  fetch_financials (λ _, Examples.degraded) Examples.now "acme"
    = Ok (snapshot Examples.degraded Examples.now "acme")
  ∧ null (snapshot Examples.degraded Examples.now "acme") "volatility"
  ∧ null (snapshot Examples.degraded Examples.now "acme") "liquidity".
Proof.
  assert (fetch_financials (λ _, Examples.degraded) Examples.now "acme"
          = Ok (snapshot Examples.degraded Examples.now "acme")) as H by reflexivity.
  split; [exact H|].
  apply (proj1 (volatility_liquidity_null_together _ _ _ _ H)). reflexivity.
Defined.

Lemma turnover_products hist :
  turnover hist = map (λ bar, (Close bar * Volume bar)%float) hist.
Proof. unfold turnover. induction hist as [|bar hist IH]; [done|]. cbn. by rewrite IH. Qed.

Lemma nan_is_not_finite : PrimFloat.is_finite PrimFloat.nan = false.
Proof. reflexivity. Qed.

(** Eight bars of close 0.1 and volume 1: numpy adds the eight products as
    a tree, and the mean is exactly 0.1; added one after the other they
    give 0.7999999999999999. *)
Lemma eight_bars_liquidity :
  liquidity_of Examples.eight_bars = 0.1%float
  ∧ fold_left PrimFloat.add (turnover Examples.eight_bars) 0%float
    = 0.7999999999999999%float.
Proof. split; reflexivity. Qed.

(** Claim C8 fails in three ways.
    - A series of two trading days has one return that is not NaN; the
      sample deviation ([ddof=1]) of one value is NaN, so [volatility] is
      NaN, which is not a finite number.
    - A longer series does not make it finite either: with a zero close
      between two ordinary ones the changes are -1 and [+inf], and
      [volatility] is NaN.
    - With a day without a close (NaN) the products are 1000, NaN and 1100;
      [liquidity] is 1050, the mean of the two products that are not NaN,
      and no arithmetic mean of the three products. *)
Lemma volatility_is_not_always_finite :
  let two := Examples.with_history (Ok Examples.two_bars) Examples.acme in
  let zero := Examples.with_history (Ok Examples.zero_close_bars) Examples.acme in
  let gap := Examples.with_history (Ok Examples.gap_bars) Examples.acme in
  (fetch_financials (λ _, two) Examples.now "acme" = Ok (snapshot two Examples.now "acme")
   ∧ (2 ≤ length Examples.two_bars)%nat
   ∧ snapshot two Examples.now "acme" !! "volatility" = Some (PFloat PrimFloat.nan))
  ∧ (fetch_financials (λ _, zero) Examples.now "acme"
       = Ok (snapshot zero Examples.now "acme")
     ∧ (2 ≤ length Examples.zero_close_bars)%nat
     ∧ day_over_day (closes Examples.zero_close_bars) = [(-1)%float; infinity]
     ∧ snapshot zero Examples.now "acme" !! "volatility" = Some (PFloat PrimFloat.nan))
  ∧ PrimFloat.is_finite PrimFloat.nan = false
  ∧ (fetch_financials (λ _, gap) Examples.now "acme" = Ok (snapshot gap Examples.now "acme")
     ∧ (2 ≤ length Examples.gap_bars)%nat
     ∧ turnover Examples.gap_bars = [1000%float; PrimFloat.nan; 1100%float]
     ∧ snapshot gap Examples.now "acme" !! "liquidity" = Some (PFloat 1050)
     ∧ ¬ arithmetic_mean (turnover Examples.gap_bars) 1050).
Proof.
  intros two zero gap.
  assert (turnover Examples.gap_bars = [1000%float; PrimFloat.nan; 1100%float]) as Hgap
    by reflexivity.
  repeat apply conj; try reflexivity; try (cbn; lia).
  intros (sum & Hsum & Hmean). rewrite Hgap in Hsum.
  rewrite (float_sum_nan _ _ Hsum), div_nan_l in Hmean.
  - discriminate (f_equal PrimFloat.is_nan Hmean).
  - apply list_elem_of_In. cbn. tauto.
Qed.

(** Claim C8, amended.  When the bar fetch returns a series, the record
    holds two floats, [volatility = v] and [liquidity = l].  With [changes]
    the day-over-day percentage changes of the close that are not NaN, and
    [traded] the products close times volume that are not NaN:
    - [v] is never negative (NaN, or at least zero);
    - [v] is NaN for every series of fewer than three bars;
    - when no close is NaN: with fewer than two changes [v] is NaN; with two
      or more, [v] is a sample standard deviation ([ddof = 1]) of the
      changes, times the square root of 252, and it is finite exactly when
      that deviation is (the scaling never overflows);
    - [l] is an arithmetic mean of the products in [traded], and NaN when
      there is none;
    - for fewer than eight bars and no NaN product, the products are added
      from the first to the last;
    - for three bars whose two changes are not NaN, [v] is the closed form
      of the last conjunct. *)
Theorem volatility_liquidity_values yf now s data hist :
  fetch_financials yf now s = Ok data →
  history (yf s) = Ok hist →
  let changes :=
    List.filter (λ r, negb (PrimFloat.is_nan r)) (day_over_day (map Close hist)) in
  let products := map (λ bar, (Close bar * Volume bar)%float) hist in
  let traded := List.filter (λ x, negb (PrimFloat.is_nan x)) products in
  ∃ v l,
    data !! "volatility" = Some (PFloat v)
    ∧ data !! "liquidity" = Some (PFloat l)
    ∧ not_negative v
    ∧ ((length hist < 3)%nat → v = PrimFloat.nan)
    ∧ (Forall (λ c, PrimFloat.is_nan c = false) (map Close hist) →
       ((length changes < 2)%nat → v = PrimFloat.nan)
       ∧ ((2 ≤ length changes)%nat →
          ∃ sd, sample_std changes sd
                ∧ v = (sd * PrimFloat.sqrt 252)%float
                ∧ PrimFloat.is_finite v = PrimFloat.is_finite sd))
    ∧ ((0 < length traded)%nat → arithmetic_mean traded l)
    ∧ (traded = [] → l = PrimFloat.nan)
    ∧ (Forall (λ x, PrimFloat.is_nan x = false) products →
       (0 < length hist < 8)%nat →
       l = ((0 + fold_left PrimFloat.add products 0) / of_nat (length hist))%float)
    ∧ (∀ b0 b1 b2,
         hist = [b0; b1; b2] →
         let r1 := (Close b1 / Close b0 - 1)%float in
         let r2 := (Close b2 / Close b1 - 1)%float in
         PrimFloat.is_nan r1 = false → PrimFloat.is_nan r2 = false →
         let avg := ((0 + (0 + r1 + r2)) / 2)%float in
         v = (PrimFloat.sqrt
                ((0 + (0 + (avg - r1) * (avg - r1) + (avg - r2) * (avg - r2))) / 1)
              * PrimFloat.sqrt 252)%float).
Proof.
  intros [_ ->]%fetch_financials_inv Hhist changes products traded.
  exists (volatility_of hist), (liquidity_of hist).
  rewrite snapshot_volatility, snapshot_liquidity.
  unfold volatility_field, liquidity_field. rewrite Hhist.
  assert (changes = dropna (pct_change (closes hist))) as Hchanges
    by (by rewrite dropna_pct_change).
  assert (traded = dropna (turnover hist)) as Htraded
    by (by rewrite turnover_products).
  repeat apply conj; try reflexivity.
  - apply volatility_not_negative.
  - apply volatility_short.
  - intros _. split.
    + intros Hfew. unfold volatility_of, std, var.
      assert ((count (pct_change (closes hist)) <=? 1)%nat = true) as ->; [|done].
      apply Nat.leb_le. unfold count. rewrite <-Hchanges. lia.
    + intros Hmany. exists (std (pct_change (closes hist))).
      split; [|split; [done|apply sqrt_scaled_finite]].
      rewrite Hchanges. apply std_sample_std. unfold count. rewrite <-Hchanges. lia.
  - intros Hsome. unfold liquidity_of. rewrite Htraded. apply mean_arithmetic.
    unfold count. by rewrite <-Htraded.
  - intros Hnone. unfold liquidity_of. apply mean_all_nan.
    unfold count. by rewrite <-Htraded, Hnone.
  - intros Hall Hlen. unfold liquidity_of. rewrite turnover_products.
    rewrite mean_short; unfold products; by rewrite ?length_map.
  - intros b0 b1 b2 -> Hr1 Hr2. unfold volatility_of. f_equal.
    change (pct_change (closes [b0; b1; b2]))
      with [(Close b0 / PrimFloat.nan - 1)%float;
            (Close b1 / Close b0 - 1)%float; (Close b2 / Close b1 - 1)%float].
    by rewrite std_two_changes; [|apply div_nan_sub_one| |].
Qed.

(** C8 (amended) at the sample provider's three bars: the changes are
    about 0.1 and -0.1, the volatility is finite, and the liquidity is
    (1000 + 1100 + 1980) / 3. *)
Lemma volatility_liquidity_values_witness :
  fetch_financials (λ _, Examples.acme) Examples.now "acme"
    = Ok (snapshot Examples.acme Examples.now "acme")
  ∧ history Examples.acme = Ok Examples.three_bars
  ∧ ∃ v l,
      snapshot Examples.acme Examples.now "acme" !! "volatility" = Some (PFloat v)
      ∧ snapshot Examples.acme Examples.now "acme" !! "liquidity" = Some (PFloat l)
      ∧ not_negative v
      ∧ (∃ sd, sample_std [0.10000000000000009; -0.099999999999999978]%float sd
               ∧ v = (sd * PrimFloat.sqrt 252)%float
               ∧ PrimFloat.is_finite v = PrimFloat.is_finite sd)
      ∧ v = 2.2449944320643658%float
      ∧ PrimFloat.is_finite v = true
      ∧ arithmetic_mean [1000; 1100; 1980]%float l
      ∧ l = 1360%float.
Proof.
  assert (fetch_financials (λ _, Examples.acme) Examples.now "acme"
          = Ok (snapshot Examples.acme Examples.now "acme")) as H by reflexivity.
  assert (history Examples.acme = Ok Examples.three_bars) as Hh by reflexivity.
  split; [exact H|]. split; [exact Hh|].
  destruct (volatility_liquidity_values _ _ _ _ _ H Hh)
    as (v & l & Hv & Hl & Hnn & _ & Hstd & Hmean & _ & Hshort & Hclosed).
  assert (Forall (λ c, PrimFloat.is_nan c = false) (map Close Examples.three_bars))
    as Hcloses by (by repeat constructor).
  exists v, l. repeat apply conj; try assumption.
  - apply (proj2 (Hstd Hcloses)). cbn. lia.
  - rewrite (Hclosed _ _ _ eq_refl); reflexivity.
  - rewrite (Hclosed _ _ _ eq_refl); reflexivity.
  - apply Hmean. cbn. lia.
  - rewrite Hshort; [reflexivity|by repeat constructor|cbn; lia].
Defined.

(** ** Non-null ratios and revenues *)

(** Claim C10 fails on a sheet with current assets 1e-200 and current
    liabilities 1e200: both operands are non-zero, the quotient underflows,
    and [current_ratio] is exactly 0.0, not [None].  (A sheet with infinite
    liabilities gives 0.0 as well.) *)
Lemma tiny_ratio_is_zero :
  let t := Examples.with_sheets (Ok Examples.tiny_sheet) Examples.down Examples.acme in
  let data := snapshot t Examples.now "acme" in
  fetch_financials (λ _, t) Examples.now "acme" = Ok data
  ∧ matched_value Examples.tiny_sheet asset_keys 1e-200
  ∧ matched_value Examples.tiny_sheet liability_keys 1e200
  ∧ data !! "current_ratio" = Some (PFloat 0)
  ∧ ¬ null data "current_ratio".
Proof.
  intros t data. repeat apply conj; try reflexivity.
  - apply matched_value_skip; [reflexivity|]. by apply matched_value_head with [].
  - apply matched_value_skip; [reflexivity|]. by apply matched_value_head with [].
  - intros [=].
Qed.

Lemma sheet_ratio_cases sheet :
  sheet_ratio sheet = PNone
  ∨ ∃ bs q, sheet = Ok bs ∧ extract_current_ratio bs = Ok (Some q)
            ∧ sheet_ratio sheet = PFloat q.
Proof.
  unfold sheet_ratio. destruct sheet as [bs|e]; [|by left].
  destruct (extract_current_ratio bs) as [[q|]|e] eqn:He; [|by left|by left].
  right. by exists bs, q.
Qed.

Lemma ratio_field_cases t :
  ratio_field t = PNone
  ∨ ∃ bs q, (get_balance_sheet t = Ok bs ∨ get_quarterly_balance_sheet t = Ok bs)
            ∧ extract_current_ratio bs = Ok (Some q) ∧ ratio_field t = PFloat q.
Proof.
  unfold ratio_field.
  destruct (sheet_ratio_cases (get_balance_sheet t)) as [Ha|(bs & q & Hbs & He & Ha)].
  - rewrite Ha. cbn [is_None].
    destruct (sheet_ratio_cases (get_quarterly_balance_sheet t))
      as [Hq|(bs & q & Hbs & He & Hq)]; [by left|].
    right. exists bs, q. by eauto.
  - rewrite Ha. cbn [is_None]. right. exists bs, q. by eauto.
Qed.

Lemma revenue_field_cases t :
  revenue_field t = PNone
  ∨ ∃ fin v, get_financials t = Ok fin ∧ matched_value fin possible_revenue_rows v
             ∧ (v =? 0)%float = false ∧ revenue_field t = PFloat v.
Proof.
  unfold revenue_field. destruct (get_financials t) as [fin|e]; [|by left].
  destruct (first_row_value possible_revenue_rows fin) as [[v|]|e] eqn:Hv;
    [|by left|by left].
  cbn [truthy of_option]. destruct (v =? 0)%float eqn:Hz; [by left|].
  right. exists fin, v. split; [done|]. split; [by apply first_row_value_Some|]. done.
Qed.

(** Claim C10, amended.  In the record [fetch_financials] returns:
    - if [total_revenue] is not [None], it is a float that does not compare
      equal to zero, the matched value of the income statement;
    - if [current_ratio] is not [None], it is the quotient of the matched
      current-assets and current-liabilities values of the annual or of the
      quarterly sheet, and neither operand compares equal to zero. *)
Theorem nonnull_fields_have_nonzero_operands yf now s data :
  fetch_financials yf now s = Ok data →
  (∀ x, data !! "total_revenue" = Some x → x ≠ PNone →
     ∃ fin v, x = PFloat v ∧ (v =? 0)%float = false
              ∧ get_financials (yf s) = Ok fin
              ∧ matched_value fin possible_revenue_rows v)
  ∧ (∀ x, data !! "current_ratio" = Some x → x ≠ PNone →
     ∃ bs a l,
       x = PFloat (a / l)%float
       ∧ (a =? 0)%float = false ∧ (l =? 0)%float = false
       ∧ (get_balance_sheet (yf s) = Ok bs ∨ get_quarterly_balance_sheet (yf s) = Ok bs)
       ∧ matched_value bs asset_keys a ∧ matched_value bs liability_keys l).
Proof.
  intros [_ ->]%fetch_financials_inv.
  rewrite snapshot_total_revenue, snapshot_current_ratio. split.
  - intros x [= <-] Hx.
    destruct (revenue_field_cases (yf s)) as [H|(fin & v & Hfin & Hv & Hz & H)];
      [done|].
    exists fin, v. by rewrite H.
  - intros x [= <-] Hx.
    destruct (ratio_field_cases (yf s)) as [H|(bs & q & Hbs & He & H)]; [done|].
    destruct (extract_current_ratio_Some _ _ He) as (a & l & Ha & Hl & Hza & Hzl & ->).
    exists bs, a, l. by rewrite H.
Qed.

(** C10 (amended) at the sample provider: the revenue 1000.0, and the ratio
    2.0 with its two operands. *)
Lemma nonnull_fields_have_nonzero_operands_witness :
  fetch_financials (λ _, Examples.acme) Examples.now "acme"
    = Ok (snapshot Examples.acme Examples.now "acme")
  ∧ (∃ fin v, PFloat 1000 = PFloat v ∧ (v =? 0)%float = false
              ∧ get_financials Examples.acme = Ok fin
              ∧ matched_value fin possible_revenue_rows v)
  ∧ (∃ bs a l,
       PFloat 2 = PFloat (a / l)%float
       ∧ (a =? 0)%float = false ∧ (l =? 0)%float = false
       ∧ (get_balance_sheet Examples.acme = Ok bs
          ∨ get_quarterly_balance_sheet Examples.acme = Ok bs)
       ∧ matched_value bs asset_keys a ∧ matched_value bs liability_keys l).
Proof.
  assert (fetch_financials (λ _, Examples.acme) Examples.now "acme"
          = Ok (snapshot Examples.acme Examples.now "acme")) as H by reflexivity.
  split; [exact H|]. split.
  - apply (proj1 (nonnull_fields_have_nonzero_operands _ _ _ _ H) (PFloat 1000));
      [reflexivity | discriminate].
  - apply (proj2 (nonnull_fields_have_nonzero_operands _ _ _ _ H) (PFloat 2));
      [reflexivity | discriminate].
Defined.

(** ** Persistence *)

Lemma id_taken_fresh c :
  oids_below c → id_taken (PObjectId (next_oid c)) c = false.
Proof.
  intros Hbelow. unfold id_taken. apply not_true_iff_false.
  rewrite existsb_exists. intros (doc & Hin & Hid).
  apply bool_decide_eq_true in Hid.
  apply list_elem_of_In in Hin. specialize (Hbelow doc _ Hin Hid). lia.
Qed.

Lemma insert_one_without_id data c :
  oids_below c → data !! "_id" = None →
  let document := <["_id" := PObjectId (next_oid c)]> data in
  insert_one data c =
    (document, Ok tt,
     {| documents := documents c ++ [document]; next_oid := N.succ (next_oid c) |}).
Proof.
  intros Hbelow Hnone document. unfold insert_one. rewrite Hnone.
  unfold dict_get. rewrite lookup_insert_eq.
  assert (id_taken (PObjectId (next_oid c))
            {| documents := documents c; next_oid := N.succ (next_oid c) |} = false)
    as Hfresh by exact (id_taken_fresh c Hbelow).
  cbv [default from_option id]. by rewrite Hfresh.
Qed.

Lemma insert_one_keeps_oids_below data c :
  oids_below c → data !! "_id" = None →
  oids_below (insert_one data c).2.
Proof.
  intros Hbelow Hnone. rewrite insert_one_without_id by done. cbn.
  intros doc n [Hin|Hin]%elem_of_app Hid; cbn.
  - specialize (Hbelow doc n Hin Hid). lia.
  - apply list_elem_of_singleton in Hin as ->.
    rewrite lookup_insert_eq in Hid. injection Hid as <-. lia.
Qed.

Lemma save_to_mongodb_without_id data w :
  oids_below (coll w) → data !! "_id" = None →
  let document := <["_id" := PObjectId (next_oid (coll w))]> data in
  save_to_mongodb data w =
    (document, Ok tt,
     {| coll := {| documents := documents (coll w) ++ [document];
                   next_oid := N.succ (next_oid (coll w)) |};
        stdout := stdout w ++ ["✔ Saved to MongoDB successfully!"] |}).
Proof.
  intros Hbelow Hnone document. unfold save_to_mongodb.
  by rewrite insert_one_without_id.
Qed.

(** Claim C9 fails when the record passed twice is one dictionary:
    [insert_one] writes the new [_id] into it, the second call finds that
    [_id] stored and raises [DuplicateKeyError], and the collection keeps a
    single document. *)
Lemma saving_one_dict_twice_raises :
  let data := snapshot Examples.acme Examples.now "acme" in
  ∃ data' w1 w2,
    fetch_financials (λ _, Examples.acme) Examples.now "acme" = Ok data
    ∧ save_to_mongodb data Examples.fresh_world = (data', Ok tt, w1)
    ∧ save_to_mongodb data' w1 = (data', Raise DuplicateKeyError, w2)
    ∧ length (documents (coll w1)) = 1%nat
    ∧ documents (coll w2) = documents (coll w1).
Proof.
  intros data.
  exists (<["_id" := PObjectId 0]> data).
  eexists. eexists.
  split; [reflexivity|].
  split; [reflexivity|].
  split; [reflexivity|].
  split; reflexivity.
Qed.

(** Claim C9, amended.  Two calls with records that carry no [_id] (every
    record of [fetch_financials] is one; the two may be equal) both
    succeed; each appends one document, the stored ones are left as they
    were, the two new documents are the records with an [_id] added, and
    they are distinct. *)
Theorem save_to_mongodb_inserts_each_record data1 data2 w :
  oids_below (coll w) →
  data1 !! "_id" = None → data2 !! "_id" = None →
  ∃ doc1 doc2 w1 w2,
    save_to_mongodb data1 w = (doc1, Ok tt, w1)
    ∧ save_to_mongodb data2 w1 = (doc2, Ok tt, w2)
    ∧ documents (coll w1) = (documents (coll w) ++ [doc1])%list
    ∧ documents (coll w2) = (documents (coll w) ++ [doc1; doc2])%list
    ∧ delete "_id" doc1 = data1 ∧ delete "_id" doc2 = data2
    ∧ doc1 ≠ doc2.
Proof.
  intros Hbelow Hid1 Hid2.
  pose proof (insert_one_keeps_oids_below data1 (coll w) Hbelow Hid1) as Hbelow1.
  rewrite insert_one_without_id in Hbelow1 by done. cbn in Hbelow1.
  eexists _, _, _, _.
  split; [by apply save_to_mongodb_without_id|].
  split; [by apply save_to_mongodb_without_id|].
  cbn. repeat apply conj.
  - done.
  - by rewrite <-app_assoc.
  - by rewrite delete_insert_id.
  - by rewrite delete_insert_id.
  - intros Heq.
    assert (<["_id" := PObjectId (next_oid (coll w))]> data1 !! "_id"
            = <["_id" := PObjectId (N.succ (next_oid (coll w)))]> data2 !! "_id") as H
      by (by rewrite Heq).
    rewrite !lookup_insert_eq in H. injection H. lia.
Qed.

(** C9 (amended) with the sample provider's record, saved twice from its
    value, into an empty collection. *)
Lemma save_to_mongodb_inserts_each_record_witness :
  let data := snapshot Examples.acme Examples.now "acme" in
  fetch_financials (λ _, Examples.acme) Examples.now "acme" = Ok data
  ∧ oids_below (coll Examples.fresh_world)
  ∧ data !! "_id" = None
  ∧ ∃ doc1 doc2 w1 w2,
      save_to_mongodb data Examples.fresh_world = (doc1, Ok tt, w1)
      ∧ save_to_mongodb data w1 = (doc2, Ok tt, w2)
      ∧ documents (coll w2) = [doc1; doc2]
      ∧ doc1 ≠ doc2.
Proof.
  intros data.
  assert (oids_below (coll Examples.fresh_world)) as Hb.
  { intros doc n Hin. by apply elem_of_nil in Hin. }
  assert (data !! "_id" = None) as Hid by apply snapshot_no_id.
  split; [reflexivity|]. split; [exact Hb|]. split; [exact Hid|].
  destruct (save_to_mongodb_inserts_each_record data data Examples.fresh_world Hb Hid Hid)
    as (doc1 & doc2 & w1 & w2 & H1 & H2 & _ & Hdocs & _ & _ & Hne).
  exists doc1, doc2, w1, w2. by repeat apply conj.
Defined.

(** * Further properties *)

(** ** Where an exception of the builder comes from *)

Lemma basic_price_data_raise_from t d e d' :
  basic_price_data t d = (Raise e, d') →
  fast_info t = Raise e
  ∨ ∃ fast k, fast_info t = Ok fast ∧ k ∈ quote_keys ∧ fast_get fast k = Raise e.
Proof.
  assert (∀ k, In k quote_keys → k ∈ quote_keys) as Hin
    by (intros k; apply list_elem_of_In).
  unfold basic_price_data. run_stmt.
  destruct (fast_info t) as [fast|e0]; [|intros [= ->]; by left].
  intros Hrun. right. exists fast.
  destruct (fast_get fast "lastPrice") eqn:Hk1.
  2: { injection Hrun as <- _. exists "lastPrice". split; [done|].
       split; [apply Hin; cbn; tauto|done]. }
  destruct (fast_get fast "marketCap") eqn:Hk2.
  2: { injection Hrun as <- _. exists "marketCap". split; [done|].
       split; [apply Hin; cbn; tauto|done]. }
  destruct (fast_get fast "yearHigh") eqn:Hk3.
  2: { injection Hrun as <- _. exists "yearHigh". split; [done|].
       split; [apply Hin; cbn; tauto|done]. }
  destruct (fast_get fast "yearLow") eqn:Hk4.
  2: { injection Hrun as <- _. exists "yearLow". split; [done|].
       split; [apply Hin; cbn; tauto|done]. }
  destruct (fast_get fast "lastVolume") eqn:Hk5; [done|].
  injection Hrun as <- _. exists "lastVolume". split; [done|].
  split; [apply Hin; cbn; tauto|done].
Qed.

(** Property X1.  An exception that leaves [fetch_financials] was raised
    outside the [try] blocks: by the constructor call [yf.Ticker(symbol)] of
    line 22, by [t.fast_info], or by one of the five lookups on it, in that
    order.  No exception of the company info, the statements, the balance
    sheets or the bar history ever leaves the function. *)
Theorem fetch_financials_raise_sources yf now s e :
  fetch_financials yf now s = Raise e →
  init (yf s) = Raise e
  ∨ (init (yf s) = Ok tt ∧ fast_info (yf s) = Raise e)
  ∨ (∃ fast k, init (yf s) = Ok tt ∧ fast_info (yf s) = Ok fast
               ∧ k ∈ quote_keys ∧ fast_get fast k = Raise e).
Proof.
  unfold fetch_financials.
  destruct (init (yf s)) as [[]|e0]; [|intros [= ->]; by left].
  cbv [mbind result_bind stmt_bind].
  destruct (basic_price_data (yf s) _) as [[u|e0] d'] eqn:Hb.
  - rewrite company_info_run, total_revenue_run, current_ratio_run,
      volatility_liquidity_run. done.
  - intros [= ->]. right.
    destruct (basic_price_data_raise_from _ _ _ _ Hb) as [Hfast|(fast & k & Hfast & Hk & He)].
    + by left.
    + right. by exists fast, k.
Qed.

(** X1 at a provider whose quick quote is down while every other facet
    answers, and at a symbol the constructor rejects. *)
Lemma fetch_financials_raise_sources_witness :
  fetch_financials (λ _, Cases.no_quote) Examples.now "acme"
    = Raise (ProviderError "connection reset")
  ∧ init Cases.no_quote = Ok tt
  ∧ fast_info Cases.no_quote = Raise (ProviderError "connection reset")
  ∧ fetch_financials (λ _, Cases.bad_isin) Examples.now "US0000000000"
    = Raise (ValueError "Invalid ISIN number: US0000000000")
  ∧ init Cases.bad_isin = Raise (ValueError "Invalid ISIN number: US0000000000").
Proof.
  assert (fetch_financials (λ _, Cases.no_quote) Examples.now "acme"
          = Raise (ProviderError "connection reset")) as H by reflexivity.
  assert (fetch_financials (λ _, Cases.bad_isin) Examples.now "US0000000000"
          = Raise (ValueError "Invalid ISIN number: US0000000000")) as H' by reflexivity.
  split; [exact H|].
  destruct (fetch_financials_raise_sources _ _ _ _ H)
    as [Hi|[[Hi Hf]|(fast & k & Hi & Hf & _)]]; [discriminate Hi| |discriminate Hf].
  split; [exact Hi|]. split; [exact Hf|]. split; [exact H'|].
  destruct (fetch_financials_raise_sources _ _ _ _ H')
    as [Hi'|[[Hi' _]|(fast & k & Hi' & _)]]; [exact Hi'|discriminate Hi'|discriminate Hi'].
Defined.

(** ** Each field answers to its own facet *)

Lemma snapshot_ticker t now s : snapshot t now s !! "ticker" = Some (PStr (upper s)).
Proof. snapshot_lookup. Qed.

Lemma snapshot_timestamp t now s : snapshot t now s !! "timestamp" = Some (PStr now).
Proof. snapshot_lookup. Qed.

Lemma snapshot_quote_fields t now s :
  Forall (λ fk, snapshot t now s !! fk.1 = Some (quote_field t fk.2)) quote_fields.
Proof. unfold quote_fields. repeat constructor; snapshot_lookup. Qed.

Lemma snapshot_company_keys t now s :
  Forall (λ fk, snapshot t now s !! fk.1 = Some (info_field t fk.2)) company_keys.
Proof. unfold company_keys. repeat constructor; snapshot_lookup. Qed.

Lemma quote_field_ok t fast k :
  quote_ok t = true → fast_info t = Ok fast → In k quote_keys →
  fast_get fast k = Ok (quote_field t k).
Proof.
  unfold quote_ok, quote_field. intros Hq Hfast Hk. rewrite Hfast in *.
  rewrite forallb_forall in Hq. specialize (Hq k Hk). by destruct (fast_get fast k).
Qed.

(** Property X2.  A field of the record depends on its own facet only: two
    runs for the same symbol at the same time agree on the fields of every
    facet that answered the same in both, and on [ticker] and [timestamp]
    whatever the provider answered. *)
Theorem facets_do_not_interfere yf yf' now s data data' :
  fetch_financials yf now s = Ok data →
  fetch_financials yf' now s = Ok data' →
  data !! "ticker" = data' !! "ticker"
  ∧ data !! "timestamp" = data' !! "timestamp"
  ∧ (fast_info (yf s) = fast_info (yf' s) →
     Forall (λ fk, data !! fk.1 = data' !! fk.1) quote_fields)
  ∧ (get_info (yf s) = get_info (yf' s) →
     Forall (λ k, data !! k = data' !! k) company_fields)
  ∧ (get_financials (yf s) = get_financials (yf' s) →
     data !! "total_revenue" = data' !! "total_revenue")
  ∧ (get_balance_sheet (yf s) = get_balance_sheet (yf' s) →
     get_quarterly_balance_sheet (yf s) = get_quarterly_balance_sheet (yf' s) →
     data !! "current_ratio" = data' !! "current_ratio")
  ∧ (history (yf s) = history (yf' s) →
     data !! "volatility" = data' !! "volatility"
     ∧ data !! "liquidity" = data' !! "liquidity").
Proof.
  intros [_ ->]%fetch_financials_inv [_ ->]%fetch_financials_inv.
  repeat apply conj.
  - by rewrite !snapshot_ticker.
  - by rewrite !snapshot_timestamp.
  - intros H.
    pose proof (snapshot_quote_fields (yf s) now s) as Hs.
    pose proof (snapshot_quote_fields (yf' s) now s) as Hs'.
    unfold quote_field in Hs, Hs'. rewrite <-H in Hs'.
    revert Hs Hs'. generalize quote_fields.
    induction 1 as [|fk fks Hfk _ IH]; inversion 1; constructor; [congruence|auto].
  - intros H.
    unfold company_fields.
    rewrite !Forall_cons, Forall_nil,
      !snapshot_sector, !snapshot_industry, !snapshot_eps, !snapshot_pe_ratio,
      !snapshot_roe, !snapshot_debt_to_equity, !snapshot_profit_margin.
    unfold info_field. by rewrite H.
  - intros H. rewrite !snapshot_total_revenue. unfold revenue_field. by rewrite H.
  - intros H H'. rewrite !snapshot_current_ratio. unfold ratio_field. by rewrite H, H'.
  - intros H. rewrite !snapshot_volatility, !snapshot_liquidity.
    unfold volatility_field, liquidity_field. by rewrite H.
Qed.

(** X2 at the sample provider, once with the company info down: every
    field outside that facet is the same in the two records. *)
Lemma facets_do_not_interfere_witness :
  let t := Examples.with_info Examples.down Examples.acme in
  let data := snapshot Examples.acme Examples.now "acme" in
  let data' := snapshot t Examples.now "acme" in
  fetch_financials (λ _, Examples.acme) Examples.now "acme" = Ok data
  ∧ fetch_financials (λ _, t) Examples.now "acme" = Ok data'
  ∧ Forall (λ fk, data !! fk.1 = data' !! fk.1) quote_fields
  ∧ data !! "total_revenue" = data' !! "total_revenue"
  ∧ data !! "current_ratio" = data' !! "current_ratio"
  ∧ data !! "volatility" = data' !! "volatility"
  ∧ data !! "liquidity" = data' !! "liquidity".
Proof.
  intros t data data'.
  assert (fetch_financials (λ _, Examples.acme) Examples.now "acme" = Ok data) as H
    by reflexivity.
  assert (fetch_financials (λ _, t) Examples.now "acme" = Ok data') as H'
    by reflexivity.
  destruct (facets_do_not_interfere _ _ _ _ _ _ H H')
    as (_ & _ & Hq & _ & Hr & Hc & Hv).
  split; [exact H|]. split; [exact H'|].
  split; [apply Hq; reflexivity|].
  split; [apply Hr; reflexivity|].
  split; [apply Hc; reflexivity|].
  apply Hv; reflexivity.
Defined.

(** ** Fields that pass a provider value through *)

(** Property X3.  The five quick-quote fields are read one by one: each
    holds what its own lookup returned ([None] included), under the key
    pairing of the source. *)
Theorem quote_fields_pass_through yf now s data fast :
  fetch_financials yf now s = Ok data →
  fast_info (yf s) = Ok fast →
  Forall (λ fk, ∃ v, fast_get fast fk.2 = Ok v ∧ data !! fk.1 = Some v) quote_fields.
Proof.
  intros [Hq ->]%fetch_financials_inv Hfast.
  pose proof (snapshot_quote_fields (yf s) now s) as Hs.
  assert (Forall (λ fk : string * string, In fk.2 quote_keys) quote_fields) as Hkeys
    by (repeat constructor; cbn; tauto).
  revert Hs Hkeys. generalize quote_fields.
  induction 1 as [|fk fks Hfk _ IH]; inversion 1; constructor; [|auto].
  exists (quote_field (yf s) fk.2). split; [|done]. by apply quote_field_ok.
Qed.

(** X3 at the sample provider. *)
Lemma quote_fields_pass_through_witness :
  let data := snapshot Examples.acme Examples.now "acme" in
  fetch_financials (λ _, Examples.acme) Examples.now "acme" = Ok data
  ∧ fast_info Examples.acme = Ok Examples.acme_fast_info
  ∧ Forall (λ fk, ∃ v, fast_get Examples.acme_fast_info fk.2 = Ok v
                       ∧ data !! fk.1 = Some v) quote_fields.
Proof.
  intros data.
  assert (fetch_financials (λ _, Examples.acme) Examples.now "acme" = Ok data) as H
    by reflexivity.
  assert (fast_info Examples.acme = Ok Examples.acme_fast_info) as Hf by reflexivity.
  split; [exact H|]. split; [exact Hf|].
  exact (quote_fields_pass_through _ _ _ _ _ H Hf).
Defined.

(** Property X4.  When the company-info lookup returns a dictionary, each of
    the seven fields holds the value under its own key of that dictionary,
    and [None] when the key is absent: a missing key nulls its field alone. *)
Theorem company_fields_read_per_key yf now s data info :
  fetch_financials yf now s = Ok data →
  get_info (yf s) = Ok info →
  Forall (λ fk, data !! fk.1 = Some (default PNone (info !! fk.2))) company_keys.
Proof.
  intros [_ ->]%fetch_financials_inv Hinfo.
  pose proof (snapshot_company_keys (yf s) now s) as Hs.
  unfold info_field, dict_get in Hs. by rewrite Hinfo in Hs.
Qed.

(** X4 at an answer that lacks [industry] and [trailingPE]: those two fields
    are [None], [sector] and [eps] keep their values. *)
Lemma company_fields_read_per_key_witness :
  let t := Examples.with_info (Ok Cases.sparse_info) Examples.acme in
  let data := snapshot t Examples.now "acme" in
  fetch_financials (λ _, t) Examples.now "acme" = Ok data
  ∧ get_info t = Ok Cases.sparse_info
  ∧ data !! "sector" = Some (PStr "Technology")
  ∧ data !! "industry" = Some PNone
  ∧ data !! "eps" = Some (PFloat 6)
  ∧ data !! "pe_ratio" = Some PNone.
Proof.
  intros t data.
  assert (fetch_financials (λ _, t) Examples.now "acme" = Ok data) as H by reflexivity.
  assert (get_info t = Ok Cases.sparse_info) as Hi by reflexivity.
  pose proof (company_fields_read_per_key _ _ _ _ _ H Hi) as Hall.
  unfold company_keys in Hall.
  apply Forall_cons in Hall as [Hsector Hall].
  apply Forall_cons in Hall as [Hindustry Hall].
  apply Forall_cons in Hall as [Heps Hall].
  apply Forall_cons in Hall as [Hpe _].
  split; [exact H|]. split; [exact Hi|].
  split; [exact Hsector|]. split; [exact Hindustry|]. split; [exact Heps|exact Hpe].
Defined.

(** ** The outcomes of the alias loop *)

Lemma first_match_or_none (df : DataFrame) names :
  no_match df names ∨ ∃ name row, first_match df names name ∧ df !! name = Some row.
Proof.
  induction names as [|name rest IH]; [left; constructor|].
  destruct (df !! name) as [row|] eqn:Hrow.
  - right. exists name, row. split; [|done]. constructor. by eexists.
  - destruct IH as [Hno|(m & row & Hm & Hrow')].
    + left. by constructor.
    + right. exists m, row. split; [|done]. by constructor.
Qed.

Lemma first_row_value_empty_row (df : DataFrame) names name :
  first_match df names name → df !! name = Some [] →
  first_row_value names df = Raise IndexError.
Proof.
  intros Hm Hrow. by rewrite (first_row_value_first_match _ _ _ _ Hm Hrow).
Qed.

(** Property X5.  The alias loop has three outcomes, decided by the first
    alias that labels a row: [None] exactly when no alias labels a row; the
    first value of that row exactly when the row has one; and it raises
    exactly when that row has no period column, always [IndexError] (the
    [KeyError] of [.loc] cannot occur, the label was tested first). *)
Theorem first_row_value_outcomes (df : DataFrame) names :
  (first_row_value names df = Ok None ↔ no_match df names)
  ∧ (∀ v, first_row_value names df = Ok (Some v) ↔ matched_value df names v)
  ∧ (∀ e, first_row_value names df = Raise e ↔
          e = IndexError ∧ ∃ name, first_match df names name ∧ df !! name = Some []).
Proof.
  assert (∀ name row, first_match df names name → df !! name = Some row →
            first_row_value names df
            = match row with [] => Raise IndexError | v :: _ => Ok (Some v) end) as Hrun.
  { intros name row Hm Hrow. rewrite (first_row_value_first_match _ _ _ _ Hm Hrow).
    by destruct row. }
  repeat apply conj.
  - intros H. destruct (first_match_or_none df names) as [Hno|(m & row & Hm & Hrow)];
      [done|]. rewrite (Hrun _ _ Hm Hrow) in H. by destruct row.
  - apply first_row_value_no_match.
  - intros v. split; [apply first_row_value_Some|apply first_row_value_matched].
  - intros e. split.
    + intros H. destruct (first_match_or_none df names) as [Hno|(m & row & Hm & Hrow)].
      * by rewrite (first_row_value_no_match _ _ Hno) in H.
      * rewrite (Hrun _ _ Hm Hrow) in H. destruct row; [|done].
        injection H as <-. split; [done|]. by exists m.
    + intros [-> (name & Hm & Hrow)]. by apply first_row_value_empty_row with name.
Qed.

(** ** What [extract_current_ratio] can raise *)

Lemma first_row_value_raise (df : DataFrame) names e :
  first_row_value names df = Raise e →
  e = IndexError ∧ ∃ name, first_match df names name ∧ df !! name = Some [].
Proof.
  intros H. destruct (first_match_or_none df names) as [Hno|(m & row & Hm & Hrow)].
  - by rewrite (first_row_value_no_match _ _ Hno) in H.
  - rewrite (first_row_value_first_match _ _ _ _ Hm Hrow) in H.
    destruct row; [|done]. injection H as <-. split; [done|]. by exists m.
Qed.

(** Property X6.  [extract_current_ratio] raises nothing but [IndexError],
    and only when the row matched for the assets or for the liabilities has
    no period column; the division never raises ([None] is never divided,
    zero never divides). *)
Theorem extract_current_ratio_raises_only_IndexError (bs : DataFrame) e :
  extract_current_ratio bs = Raise e →
  e = IndexError
  ∧ ∃ names name,
      (names = asset_keys ∨ names = liability_keys)
      ∧ first_match bs names name ∧ bs !! name = Some [].
Proof.
  unfold extract_current_ratio. cbv [mbind result_bind].
  destruct (first_row_value asset_keys bs) as [curr_assets|ea] eqn:Ha.
  - destruct (first_row_value liability_keys bs) as [curr_liabilities|el] eqn:Hl.
    + destruct curr_assets as [a|], curr_liabilities as [l|]; cbn [truthy ne_zero truediv];
        try done.
      * by destruct (negb (a =? 0)%float && negb (l =? 0)%float && negb (l =? 0)%float).
      * by rewrite andb_false_r.
    + intros [= ->]. destruct (first_row_value_raise _ _ _ Hl) as [-> (name & Hm & Hrow)].
      split; [done|]. exists liability_keys, name. by eauto.
  - intros [= ->]. destruct (first_row_value_raise _ _ _ Ha) as [-> (name & Hm & Hrow)].
    split; [done|]. exists asset_keys, name. by eauto.
Qed.

(** X6 at a sheet whose rows have no period column. *)
Lemma extract_current_ratio_raises_only_IndexError_witness :
  extract_current_ratio Cases.no_period_sheet = Raise IndexError
  ∧ ∃ names name,
      (names = asset_keys ∨ names = liability_keys)
      ∧ first_match Cases.no_period_sheet names name
      ∧ Cases.no_period_sheet !! name = Some [].
Proof.
  assert (extract_current_ratio Cases.no_period_sheet = Raise IndexError) as H
    by reflexivity.
  split; [exact H|].
  exact (proj2 (extract_current_ratio_raises_only_IndexError _ _ H)).
Defined.

(** ** Cells that are NaN, rows that are empty *)

(** Property X7.  A NaN cell is not treated as missing.  A NaN matched
    revenue is stored as NaN; a NaN matched current-assets or
    current-liabilities value of the annual sheet, the other operand being
    non-zero, makes [current_ratio] NaN, and the quarterly sheet is not
    consulted. *)
Theorem nan_cells_are_kept yf now s data :
  fetch_financials yf now s = Ok data →
  (∀ fin,
      get_financials (yf s) = Ok fin →
      matched_value fin possible_revenue_rows PrimFloat.nan →
      data !! "total_revenue" = Some (PFloat PrimFloat.nan))
  ∧ (∀ annual a l,
      get_balance_sheet (yf s) = Ok annual →
      matched_value annual asset_keys a →
      matched_value annual liability_keys l →
      (a = PrimFloat.nan ∧ (l =? 0)%float = false)
      ∨ ((a =? 0)%float = false ∧ l = PrimFloat.nan) →
      data !! "current_ratio" = Some (PFloat PrimFloat.nan)).
Proof.
  intros [_ ->]%fetch_financials_inv. split.
  - intros fin Hfin Hv. rewrite snapshot_total_revenue. unfold revenue_field.
    by rewrite Hfin, (first_row_value_matched _ _ _ Hv).
  - intros annual a l Hbs Ha Hl Hnan.
    rewrite snapshot_current_ratio. f_equal. apply ratio_field_annual.
    unfold sheet_ratio. rewrite Hbs, (extract_current_ratio_matched _ _ _ Ha Hl).
    cbn [truthy ne_zero].
    destruct Hnan as [[-> Hz]|[Hz ->]].
    + rewrite Hz, div_nan_l. reflexivity.
    + rewrite Hz, div_nan_r. reflexivity.
Qed.

(** X7 at a provider whose annual sheet has a NaN current-assets cell and
    whose quarterly sheet would give 2.0. *)
Lemma nan_cells_are_kept_witness :
  let t := Examples.with_sheets (Ok Cases.nan_assets_sheet) (Ok Examples.quarterly_sheet)
             (Cases.with_financials (Ok Cases.nan_revenue_statement) Examples.acme) in
  let data := snapshot t Examples.now "acme" in
  fetch_financials (λ _, t) Examples.now "acme" = Ok data
  ∧ data !! "total_revenue" = Some (PFloat PrimFloat.nan)
  ∧ data !! "current_ratio" = Some (PFloat PrimFloat.nan).
Proof.
  intros t data.
  assert (fetch_financials (λ _, t) Examples.now "acme" = Ok data) as H by reflexivity.
  destruct (nan_cells_are_kept _ _ _ _ H) as [Hrevenue Hratio].
  split; [exact H|]. split.
  - apply (Hrevenue Cases.nan_revenue_statement); [reflexivity|].
    by apply matched_value_head with [900%float].
  - apply (Hratio Cases.nan_assets_sheet PrimFloat.nan 100%float).
    + reflexivity.
    + apply matched_value_skip; [reflexivity|].
      by apply matched_value_head with [180%float].
    + apply matched_value_skip; [reflexivity|].
      by apply matched_value_head with [90%float].
    + left. split; reflexivity.
Defined.

(** Property X8.  A matched row without period columns raises inside the
    [try] and is caught: [total_revenue] is [None], and an annual sheet
    with such a row hands [current_ratio] over to the quarterly sheet. *)
Theorem empty_row_is_caught yf now s data :
  fetch_financials yf now s = Ok data →
  (∀ fin name,
      get_financials (yf s) = Ok fin →
      first_match fin possible_revenue_rows name → fin !! name = Some [] →
      null data "total_revenue")
  ∧ (∀ annual names name,
      get_balance_sheet (yf s) = Ok annual →
      names = asset_keys ∨ names = liability_keys →
      first_match annual names name → annual !! name = Some [] →
      data !! "current_ratio"
      = Some (sheet_ratio (get_quarterly_balance_sheet (yf s)))).
Proof.
  intros [_ ->]%fetch_financials_inv. split.
  - intros fin name Hfin Hm Hrow. unfold null.
    rewrite snapshot_total_revenue. unfold revenue_field.
    by rewrite Hfin, (first_row_value_empty_row _ _ _ Hm Hrow).
  - intros annual names name Hbs Hnames Hm Hrow.
    rewrite snapshot_current_ratio. f_equal. apply ratio_field_quarterly.
    unfold sheet_ratio. rewrite Hbs.
    assert (∃ e, extract_current_ratio annual = Raise e) as [e ->]; [|done].
    unfold extract_current_ratio. cbv [mbind result_bind].
    destruct Hnames as [-> | ->].
    + rewrite (first_row_value_empty_row _ _ _ Hm Hrow). by eexists.
    + rewrite (first_row_value_empty_row _ _ _ Hm Hrow).
      destruct (first_row_value asset_keys annual); by eexists.
Qed.

(** X8 at a provider whose income statement and annual sheet have rows
    without period columns. *)
Lemma empty_row_is_caught_witness :
  let t := Examples.with_sheets (Ok Cases.no_period_sheet) (Ok Examples.quarterly_sheet)
             (Cases.with_financials (Ok Cases.no_period_statement) Examples.acme) in
  let data := snapshot t Examples.now "acme" in
  fetch_financials (λ _, t) Examples.now "acme" = Ok data
  ∧ null data "total_revenue"
  ∧ data !! "current_ratio" = Some (PFloat 2).
Proof.
  intros t data.
  assert (fetch_financials (λ _, t) Examples.now "acme" = Ok data) as H by reflexivity.
  destruct (empty_row_is_caught _ _ _ _ H) as [Hrevenue Hratio].
  split; [exact H|]. split.
  - apply (Hrevenue Cases.no_period_statement "Total Revenue"); [reflexivity| |reflexivity].
    constructor. by eexists.
  - apply (Hratio Cases.no_period_sheet asset_keys "Current Assets");
      [reflexivity|by left| |reflexivity].
    constructor; [reflexivity|]. constructor. by eexists.
Defined.

(** Property X9.  Only the most recent period of a row is read: two tables
    with the same row labels and the same first cell in every row give the
    same outcome of the alias loop and of [extract_current_ratio]. *)
Theorem only_the_most_recent_period_is_read (bs bs' : DataFrame) :
  (∀ name, head <$> (bs !! name) = head <$> (bs' !! name)) →
  (∀ names, first_row_value names bs = first_row_value names bs')
  ∧ extract_current_ratio bs = extract_current_ratio bs'.
Proof.
  intros Hsame.
  assert (∀ names, first_row_value names bs = first_row_value names bs') as Hloop.
  { induction names as [|name rest IH]; [done|]. cbn [first_row_value].
    unfold in_index, loc. specialize (Hsame name).
    destruct (bs !! name) as [row|], (bs' !! name) as [row'|]; try done.
    cbn. injection Hsame as Hhead. by destruct row, row'; simplify_eq/=. }
  split; [done|]. unfold extract_current_ratio. by rewrite !Hloop.
Qed.

(** X9 at the sample annual sheet and a sheet that differs in the older
    periods only. *)
Lemma only_the_most_recent_period_is_read_witness :
  extract_current_ratio Examples.annual_sheet
  = extract_current_ratio Cases.restated_sheet.
Proof.
  apply only_the_most_recent_period_is_read. intros name.
  unfold Examples.annual_sheet, Cases.restated_sheet.
  destruct (decide (name = "Current Assets")) as [->|]; [reflexivity|].
  destruct (decide (name = "Current Liabilities")) as [->|]; [reflexivity|].
  destruct (decide (name = "Cash")) as [->|]; [reflexivity|].
  by rewrite !lookup_insert_ne, !lookup_empty.
Defined.

(** ** What [save_to_mongodb] does to the collection *)

Lemma id_taken_true oid c :
  id_taken oid c = true ↔ Some oid ∈ map (λ doc : dict, doc !! "_id") (documents c).
Proof.
  unfold id_taken. rewrite existsb_exists, list_elem_of_fmap. split.
  - intros (doc & Hin & Hid). apply bool_decide_eq_true in Hid.
    exists doc. split; [done|]. by apply list_elem_of_In.
  - intros (doc & Hid & Hin). exists doc. split; [by apply list_elem_of_In|].
    by apply bool_decide_eq_true.
Qed.

(** The run of [save_to_mongodb] in one equation: [stamped] is the caller's
    dictionary after the call, [next] the generator state. *)
Lemma save_to_mongodb_cases data w :
  ∃ stamped next,
    (match data !! "_id" with
     | Some _ => stamped = data
     | None => stamped = <["_id" := PObjectId (next_oid (coll w))]> data
     end)
    ∧ (∃ oid, stamped !! "_id" = Some oid
              ∧ save_to_mongodb data w =
                  if id_taken oid (coll w)
                  then (stamped, Raise DuplicateKeyError,
                        {| coll := {| documents := documents (coll w);
                                      next_oid := next |};
                           stdout := stdout w |})
                  else (stamped, Ok tt,
                        {| coll := {| documents := (documents (coll w) ++ [stamped])%list;
                                      next_oid := next |};
                           stdout := (stdout w ++ ["✔ Saved to MongoDB successfully!"])%list |})).
Proof.
  unfold save_to_mongodb, insert_one. destruct (data !! "_id") as [v|] eqn:Hid.
  - exists data, (next_oid (coll w)). split; [done|]. exists v. split; [done|].
    unfold dict_get. rewrite Hid. cbv [default from_option id].
    destruct (coll w) as [docs n]. by destruct (id_taken v _).
  - exists (<["_id" := PObjectId (next_oid (coll w))]> data), (N.succ (next_oid (coll w))).
    split; [done|]. exists (PObjectId (next_oid (coll w))).
    split; [by rewrite lookup_insert_eq|].
    unfold dict_get. rewrite lookup_insert_eq. cbv [default from_option id].
    change (id_taken (PObjectId (next_oid (coll w)))
              {| documents := documents (coll w);
                 next_oid := N.succ (next_oid (coll w)) |})
      with (id_taken (PObjectId (next_oid (coll w))) (coll w)).
    by destruct (id_taken _ _).
Qed.

(** Property X11.  The dictionary the caller passed comes back with an
    [_id]: every other field is as it was, an [_id] the caller supplied is
    kept (the dictionary is unchanged), and a dictionary without one gets
    the generator's next [ObjectId], whether or not the insert succeeds. *)
Theorem save_to_mongodb_keeps_the_fields data w :
  let data' := (save_to_mongodb data w).1.1 in
  is_Some (data' !! "_id")
  ∧ (∀ k, k ≠ "_id" → data' !! k = data !! k)
  ∧ (is_Some (data !! "_id") → data' = data)
  ∧ (data !! "_id" = None → data' !! "_id" = Some (PObjectId (next_oid (coll w)))).
Proof.
  destruct (save_to_mongodb_cases data w) as (stamped & next & Hst & oid & Hoid & Hrun).
  assert ((save_to_mongodb data w).1.1 = stamped) as ->
    by (rewrite Hrun; by destruct (id_taken oid (coll w))).
  cbv zeta. destruct (data !! "_id") as [v|] eqn:Hd; subst stamped.
  - by repeat apply conj.
  - repeat apply conj.
    + done.
    + intros k Hk. by rewrite lookup_insert_ne.
    + by intros [? [=]].
    + intros _. by rewrite lookup_insert_eq.
Qed.

(** Property X12.  The collection never holds two documents with the same
    [_id], and every stored document has one: whatever dictionary is
    passed, [save_to_mongodb] keeps that invariant. *)
Theorem save_to_mongodb_keeps_ids_unique data w :
  unique_ids (coll w) → unique_ids (coll (save_to_mongodb data w).2).
Proof.
  intros [Hnodup Hall].
  destruct (save_to_mongodb_cases data w) as (stamped & next & _ & oid & Hoid & ->).
  destruct (id_taken oid (coll w)) eqn:Htaken; cbn; [done|].
  unfold unique_ids. cbn. rewrite map_app, Forall_app. cbn.
  split; [|split; [done|by repeat constructor]].
  apply NoDup_app. split; [done|]. split; [|apply NoDup_singleton].
  intros o Ho Ho'. apply list_elem_of_singleton in Ho' as ->.
  rewrite Hoid in Ho. apply id_taken_true in Ho. congruence.
Qed.

(** X12 at a collection that holds one record, saving the same record's
    value again. *)
Lemma save_to_mongodb_keeps_ids_unique_witness :
  let data := snapshot Examples.acme Examples.now "ACME" in
  unique_ids (coll Cases.stocked_world)
  ∧ unique_ids (coll (save_to_mongodb data Cases.stocked_world).2).
Proof.
  intros data.
  assert (unique_ids (coll Cases.stocked_world)) as H.
  { split; cbn.
    - apply NoDup_singleton.
    - repeat constructor. by eexists. }
  split; [exact H|]. exact (save_to_mongodb_keeps_ids_unique data _ H).
Defined.

(** Property X13.  A dictionary that was saved cannot be saved again: after
    a successful call, passing the dictionary it returned raises
    [DuplicateKeyError], stores nothing and prints nothing, in whatever
    state the first call left. *)
Theorem saving_again_raises data w data' w' :
  save_to_mongodb data w = (data', Ok tt, w') →
  ∃ w'', save_to_mongodb data' w' = (data', Raise DuplicateKeyError, w'')
         ∧ documents (coll w'') = documents (coll w')
         ∧ stdout w'' = stdout w'.
Proof.
  intros Hsave.
  destruct (save_to_mongodb_cases data w) as (stamped & next & _ & oid & Hoid & Hrun).
  rewrite Hrun in Hsave.
  destruct (id_taken oid (coll w)); [done|]. injection Hsave as <- <-.
  destruct (save_to_mongodb_cases stamped
              {| coll := {| documents := (documents (coll w) ++ [stamped])%list;
                            next_oid := next |};
                 stdout := (stdout w ++ ["✔ Saved to MongoDB successfully!"])%list |})
    as (stamped' & next' & Hst' & oid' & Hoid' & ->).
  rewrite Hoid in Hst'. subst stamped'.
  assert (oid' = oid) as -> by congruence.
  assert (id_taken oid {| documents := (documents (coll w) ++ [stamped])%list;
                          next_oid := next |} = true) as Htaken.
  { apply id_taken_true. cbn. rewrite map_app. apply elem_of_app. right.
    cbn. rewrite Hoid. by apply list_elem_of_singleton. }
  cbn [coll]. rewrite Htaken. by eexists.
Qed.

(** X13 at the sample provider's record and an empty collection. *)
Lemma saving_again_raises_witness :
  let data := snapshot Examples.acme Examples.now "acme" in
  let data' := <["_id" := PObjectId 0]> data in
  ∃ w' w'',
    save_to_mongodb data Examples.fresh_world = (data', Ok tt, w')
    ∧ save_to_mongodb data' w' = (data', Raise DuplicateKeyError, w'')
    ∧ documents (coll w'') = documents (coll w').
Proof.
  intros data data'.
  assert (save_to_mongodb data Examples.fresh_world
          = (data', Ok tt, (save_to_mongodb data Examples.fresh_world).2)) as H
    by reflexivity.
  destruct (saving_again_raises _ _ _ _ H) as (w'' & Hagain & Hdocs & _).
  exists (save_to_mongodb data Examples.fresh_world).2, w''. by repeat apply conj.
Defined.

(** ** The entry point *)




(** Property X15.  When the quick quote of the uppercased ticker does not
    answer, the entry point stores nothing: the collection is as it was,
    and the output is the prompt, the fetching line and one error line with
    the exception [fetch_financials] raised. *)
Theorem main_failed_fetch_saves_nothing yf now str_dict str_exn typed w :
  quote_ok (yf (upper typed)) = false →
  coll (main yf now str_dict str_exn typed w) = coll w
  ∧ ∃ e,
      fetch_financials yf now (upper typed) = Raise e
      ∧ stdout (main yf now str_dict str_exn typed w)
        = (stdout w ++
           ["Enter stock ticker (e.g., AAPL): ";
            (newline ++ "Fetching financial data...")%string;
            (newline ++ "❌ Error: " ++ str_exn e)%string])%list.
Proof.
  intros Hq. destruct (fetch_financials_raise yf now (upper typed) Hq) as [e He].
  unfold main. rewrite He. split; [done|]. exists e. split; [done|].
  cbn. by rewrite <-!app_assoc.
Qed.

(** X15 at a provider whose quick quote is down. *)
Lemma main_failed_fetch_saves_nothing_witness :
  quote_ok Cases.no_quote = false
  ∧ coll (main (λ _, Cases.no_quote) Examples.now Cases.show_dict Cases.show_exn
            "acme" Cases.stocked_world)
    = coll Cases.stocked_world.
Proof.
  assert (quote_ok Cases.no_quote = false) as H by reflexivity.
  split; [exact H|].
  exact (proj1 (main_failed_fetch_saves_nothing (λ _, Cases.no_quote) Examples.now
                  Cases.show_dict Cases.show_exn "acme" Cases.stocked_world H)).
Defined.



(** Property X17.  Whatever the provider answers and whatever the collection
    holds, the entry point leaves the stored documents in place and adds at
    most one, and it only adds to the output. *)
Theorem main_only_appends yf now str_dict str_exn typed w :
  let w' := main yf now str_dict str_exn typed w in
  (documents (coll w') = documents (coll w)
   ∨ ∃ doc, documents (coll w') = (documents (coll w) ++ [doc])%list)
  ∧ stdout w `prefix_of` stdout w'.
Proof.
  cbv zeta. unfold main.
  destruct (fetch_financials yf now (upper typed)) as [result|e].
  - destruct (save_to_mongodb_cases result
                (print (newline ++ "Saving to MongoDB...")
                   (print (newline ++ "Fetching financial data...")
                      (print "Enter stock ticker (e.g., AAPL): " w))))
      as (stamped & next & _ & oid & _ & ->).
    destruct (id_taken oid _); cbn.
    + split; [by left|]. rewrite <-!app_assoc. by apply prefix_app_r.
    + split; [right; by eexists|]. rewrite <-!app_assoc. by apply prefix_app_r.
  - cbn. split; [by left|]. rewrite <-!app_assoc. by apply prefix_app_r.
Qed.
